(** * Edit history and expand-frame geometry of the photo editor (src/App.tsx)

    A shallow embedding of the [App] component: its [useState] cells form a
    record, every [setX(v)] call is a constructor of [SetState], and a handler
    is a function from the state its closure captured at render time to the
    list of [setX] calls it issues.  Asynchronous handlers are split at their
    single [await]: the part before it returns the request handed to the
    generative service, the part after it is a function of the service's
    outcome.

    JavaScript numbers that only ever hold integers ([historyIndex], array
    lengths, [Date.now()]) are [Z]; pixel coordinates, dimensions and the
    scale factor are IEEE 754 binary64 values, Rocq's primitive [float], with
    the operators of the source ([+ - * /], [<], [>], [<=]) as the primitive
    operations.  A [string] holds the UTF-8 encoding of a JavaScript
    string. *)

From Stdlib Require Import ZArith QArith Qround Qabs Lia Lqa.
From Stdlib Require Import Floats.
From Stdlib Require Uint63.
From Stdlib Require Import String Ascii Bool DecimalString List.
Import ListNotations.

Set Warnings "-inexact-float".

Local Open Scope string_scope.
Local Open Scope list_scope.
Local Open Scope Z_scope.

(** ** JavaScript primitives used by the component *)

(** [Array.prototype.slice]: a negative relative index counts from the end,
    both indices are clamped to the array. *)
Definition relativeIndex (len k : Z) : Z :=
  if k <? 0 then Z.max (len + k) 0 else Z.min k len.

Definition slice {A : Type} (arr : list A) (start end_ : Z) : list A :=
  let len := Z.of_nat (length arr) in
  let k := relativeIndex len start in
  let final := relativeIndex len end_ in
  firstn (Z.to_nat (final - k)) (skipn (Z.to_nat k) arr).

(** [arr[i] ?? null] for an integer [i]. *)
Definition at_index {A : Type} (arr : list A) (i : Z) : option A :=
  if i <? 0 then None else nth_error arr (Z.to_nat i).

(** [Math.round] on a double: NaN, the infinities, the zeros and every value
    that is already an integer are returned as they are; any other value
    [m * 2^e] (with [e < 0]) goes to the integer [floor (m * 2^e + 1/2)],
    computed exactly, ties towards plus infinity, and a zero result takes the
    sign of the argument. *)
Definition Math_round (x : float) : float :=
  match Prim2SF x with
  | S754_finite s m e =>
      if 0 <=? e then x
      else
        let d := 2 ^ (- e) in
        let v := if s then Z.neg m else Z.pos m in
        let n := (2 * v + d) / (2 * d) in
        if n =? 0 then (if s then (-0)%float else 0%float)
        else if n <? 0 then PrimFloat.opp (of_uint63 (Uint63.of_Z (- n)))
        else of_uint63 (Uint63.of_Z n)
  | _ => x
  end.

(** [handle.includes(ch)] for a one-character needle. *)
Definition includes (handle : string) (ch : ascii) : bool :=
  existsb (Ascii.eqb ch) (list_ascii_of_string handle).

(** The characters [String.prototype.trim] removes (WhiteSpace and
    LineTerminator of ECMAScript), by their UTF-8 encoding: one byte for
    U+0009..U+000D and U+0020; C2 A0 for U+00A0; E1 9A 80 for U+1680;
    E2 80 80..8A, A8, A9, AF for U+2000..U+200A, U+2028, U+2029, U+202F;
    E2 81 9F for U+205F; E3 80 80 for U+3000; EF BB BF for U+FEFF. *)
Definition isWhiteSpace1 (c1 : ascii) : bool :=
  let n := nat_of_ascii c1 in
  ((9 <=? n) && (n <=? 13))%nat || (n =? 32)%nat.

Definition isWhiteSpace2 (c1 c2 : ascii) : bool :=
  ((nat_of_ascii c1 =? 194) && (nat_of_ascii c2 =? 160))%nat.

Definition isWhiteSpace3 (c1 c2 c3 : ascii) : bool :=
  let n1 := nat_of_ascii c1 in
  let n2 := nat_of_ascii c2 in
  let n3 := nat_of_ascii c3 in
  ((n1 =? 225) && (n2 =? 154) && (n3 =? 128)
   || (n1 =? 226) && (n2 =? 128)
      && (((128 <=? n3) && (n3 <=? 138)) || (n3 =? 168) || (n3 =? 169)
          || (n3 =? 175))
   || (n1 =? 226) && (n2 =? 129) && (n3 =? 159)
   || (n1 =? 227) && (n2 =? 128) && (n3 =? 128)
   || (n1 =? 239) && (n2 =? 187) && (n3 =? 191))%nat.

(** [!str.trim()]: nothing is left of the string once trimmed, that is, it
    consists of white space only. *)
Fixpoint trim_is_empty (str : string) : bool :=
  match str with
  | EmptyString => true
  | String c1 rest1 =>
      if isWhiteSpace1 c1 then trim_is_empty rest1
      else
        match rest1 with
        | EmptyString => false
        | String c2 rest2 =>
            if isWhiteSpace2 c1 c2 then trim_is_empty rest2
            else
              match rest2 with
              | EmptyString => false
              | String c3 rest3 =>
                  if isWhiteSpace3 c1 c2 c3 then trim_is_empty rest3
                  else false
              end
        end
  end.

(** Decimal rendering of an integer inside a template literal. *)
Definition Z_to_string (z : Z) : string := NilZero.string_of_int (Z.to_int z).

(** A thrown value: an [Error] object with its message, or anything else. *)
Inductive Thrown : Type :=
| Error (message : string)
| NotAnError.

(** ** Data *)

(** A browser [File]: name, MIME type and content (a binary string). *)
Record File : Type := mkFile {
  file_name : string;
  file_type : string;
  file_data : string
}.

Inductive Tab : Type :=
| Tab_retouch | Tab_adjust | Tab_filters | Tab_expand | Tab_crop.

Definition Tab_eqb (a b : Tab) : bool :=
  match a, b with
  | Tab_retouch, Tab_retouch | Tab_adjust, Tab_adjust
  | Tab_filters, Tab_filters | Tab_expand, Tab_expand
  | Tab_crop, Tab_crop => true
  | _, _ => false
  end.

(** [type ExpandRect = { top; left; width; height }], in pixels relative to
    the image container. *)
Record ExpandRect : Type := mkExpandRect {
  top : float;
  left : float;
  width : float;
  height : float
}.

(** [type DragState]. *)
Record DragState : Type := mkDragState {
  handle : string;
  initialRect : ExpandRect;
  initialMouseX : float;
  initialMouseY : float
}.

(** The fields of a [DOMRect] the component reads. *)
Module DOMRect.
Record t : Type := mk { top : float; left : float; width : float; height : float }.
End DOMRect.

(** [imageDimensions]: the natural size recorded by [handleImageLoad]. *)
Module Dim.
Record t : Type := mk { width : float; height : float }.
End Dim.

(** [Crop] / [PixelCrop] of react-image-crop. *)
Module Crop.
Record t : Type :=
  mk { x : float; y : float; width : float; height : float; percent : bool }.
End Crop.

(** ** Component state: one field per [useState] cell of [App] *)

Record State : Type := mkState {
  history : list File;
  historyIndex : Z;
  prompt : string;
  isLoading : bool;
  isUpscaling : bool;
  isImprovingPrompt : bool;
  error : option string;
  activeTab : Tab;
  crop : option Crop.t;
  completedCrop : option Crop.t;
  aspect : option float;
  isComparing : bool;
  imageDimensions : option Dim.t;
  expandRect : option ExpandRect;
  dragState : option DragState;
  retouchReferenceImage : option File;
  isGeneratingImage : bool;
  isConfirmModalOpen : bool
}.

(** The initial values passed to [useState]. *)
Definition initialState : State :=
  {| history := []; historyIndex := -1; prompt := "";
     isLoading := false; isUpscaling := false; isImprovingPrompt := false;
     error := None; activeTab := Tab_retouch;
     crop := None; completedCrop := None; aspect := None;
     isComparing := false; imageDimensions := None;
     expandRect := None; dragState := None;
     retouchReferenceImage := None;
     isGeneratingImage := false; isConfirmModalOpen := false |}.

(** ** State updates

    One constructor per [useState] setter.  The component only ever calls a
    setter with a value (never with an updater function), so an update
    overwrites one cell whatever the state it is applied to. *)

Inductive SetState : Type :=
| setHistory (v : list File)
| setHistoryIndex (v : Z)
| setPrompt (v : string)
| setIsLoading (v : bool)
| setIsUpscaling (v : bool)
| setIsImprovingPrompt (v : bool)
| setError (v : option string)
| setActiveTab (v : Tab)
| setCrop (v : option Crop.t)
| setCompletedCrop (v : option Crop.t)
| setAspect (v : option float)
| setIsComparing (v : bool)
| setImageDimensions (v : option Dim.t)
| setExpandRect (v : option ExpandRect)
| setDragState (v : option DragState)
| setRetouchReferenceImage (v : option File)
| setIsGeneratingImage (v : bool)
| setIsConfirmModalOpen (v : bool).

Definition apply_set (s : State) (u : SetState) : State :=
  match u with
  | setHistory v =>
      {| history := v; historyIndex := historyIndex s; prompt := prompt s;
         isLoading := isLoading s; isUpscaling := isUpscaling s;
         isImprovingPrompt := isImprovingPrompt s; error := error s;
         activeTab := activeTab s; crop := crop s;
         completedCrop := completedCrop s; aspect := aspect s;
         isComparing := isComparing s; imageDimensions := imageDimensions s;
         expandRect := expandRect s; dragState := dragState s;
         retouchReferenceImage := retouchReferenceImage s;
         isGeneratingImage := isGeneratingImage s;
         isConfirmModalOpen := isConfirmModalOpen s |}
  | setHistoryIndex v =>
      {| history := history s; historyIndex := v; prompt := prompt s;
         isLoading := isLoading s; isUpscaling := isUpscaling s;
         isImprovingPrompt := isImprovingPrompt s; error := error s;
         activeTab := activeTab s; crop := crop s;
         completedCrop := completedCrop s; aspect := aspect s;
         isComparing := isComparing s; imageDimensions := imageDimensions s;
         expandRect := expandRect s; dragState := dragState s;
         retouchReferenceImage := retouchReferenceImage s;
         isGeneratingImage := isGeneratingImage s;
         isConfirmModalOpen := isConfirmModalOpen s |}
  | setPrompt v =>
      {| history := history s; historyIndex := historyIndex s; prompt := v;
         isLoading := isLoading s; isUpscaling := isUpscaling s;
         isImprovingPrompt := isImprovingPrompt s; error := error s;
         activeTab := activeTab s; crop := crop s;
         completedCrop := completedCrop s; aspect := aspect s;
         isComparing := isComparing s; imageDimensions := imageDimensions s;
         expandRect := expandRect s; dragState := dragState s;
         retouchReferenceImage := retouchReferenceImage s;
         isGeneratingImage := isGeneratingImage s;
         isConfirmModalOpen := isConfirmModalOpen s |}
  | setIsLoading v =>
      {| history := history s; historyIndex := historyIndex s;
         prompt := prompt s; isLoading := v; isUpscaling := isUpscaling s;
         isImprovingPrompt := isImprovingPrompt s; error := error s;
         activeTab := activeTab s; crop := crop s;
         completedCrop := completedCrop s; aspect := aspect s;
         isComparing := isComparing s; imageDimensions := imageDimensions s;
         expandRect := expandRect s; dragState := dragState s;
         retouchReferenceImage := retouchReferenceImage s;
         isGeneratingImage := isGeneratingImage s;
         isConfirmModalOpen := isConfirmModalOpen s |}
  | setIsUpscaling v =>
      {| history := history s; historyIndex := historyIndex s;
         prompt := prompt s; isLoading := isLoading s; isUpscaling := v;
         isImprovingPrompt := isImprovingPrompt s; error := error s;
         activeTab := activeTab s; crop := crop s;
         completedCrop := completedCrop s; aspect := aspect s;
         isComparing := isComparing s; imageDimensions := imageDimensions s;
         expandRect := expandRect s; dragState := dragState s;
         retouchReferenceImage := retouchReferenceImage s;
         isGeneratingImage := isGeneratingImage s;
         isConfirmModalOpen := isConfirmModalOpen s |}
  | setIsImprovingPrompt v =>
      {| history := history s; historyIndex := historyIndex s;
         prompt := prompt s; isLoading := isLoading s;
         isUpscaling := isUpscaling s; isImprovingPrompt := v;
         error := error s; activeTab := activeTab s; crop := crop s;
         completedCrop := completedCrop s; aspect := aspect s;
         isComparing := isComparing s; imageDimensions := imageDimensions s;
         expandRect := expandRect s; dragState := dragState s;
         retouchReferenceImage := retouchReferenceImage s;
         isGeneratingImage := isGeneratingImage s;
         isConfirmModalOpen := isConfirmModalOpen s |}
  | setError v =>
      {| history := history s; historyIndex := historyIndex s;
         prompt := prompt s; isLoading := isLoading s;
         isUpscaling := isUpscaling s;
         isImprovingPrompt := isImprovingPrompt s; error := v;
         activeTab := activeTab s; crop := crop s;
         completedCrop := completedCrop s; aspect := aspect s;
         isComparing := isComparing s; imageDimensions := imageDimensions s;
         expandRect := expandRect s; dragState := dragState s;
         retouchReferenceImage := retouchReferenceImage s;
         isGeneratingImage := isGeneratingImage s;
         isConfirmModalOpen := isConfirmModalOpen s |}
  | setActiveTab v =>
      {| history := history s; historyIndex := historyIndex s;
         prompt := prompt s; isLoading := isLoading s;
         isUpscaling := isUpscaling s;
         isImprovingPrompt := isImprovingPrompt s; error := error s;
         activeTab := v; crop := crop s; completedCrop := completedCrop s;
         aspect := aspect s; isComparing := isComparing s;
         imageDimensions := imageDimensions s; expandRect := expandRect s;
         dragState := dragState s;
         retouchReferenceImage := retouchReferenceImage s;
         isGeneratingImage := isGeneratingImage s;
         isConfirmModalOpen := isConfirmModalOpen s |}
  | setCrop v =>
      {| history := history s; historyIndex := historyIndex s;
         prompt := prompt s; isLoading := isLoading s;
         isUpscaling := isUpscaling s;
         isImprovingPrompt := isImprovingPrompt s; error := error s;
         activeTab := activeTab s; crop := v;
         completedCrop := completedCrop s; aspect := aspect s;
         isComparing := isComparing s; imageDimensions := imageDimensions s;
         expandRect := expandRect s; dragState := dragState s;
         retouchReferenceImage := retouchReferenceImage s;
         isGeneratingImage := isGeneratingImage s;
         isConfirmModalOpen := isConfirmModalOpen s |}
  | setCompletedCrop v =>
      {| history := history s; historyIndex := historyIndex s;
         prompt := prompt s; isLoading := isLoading s;
         isUpscaling := isUpscaling s;
         isImprovingPrompt := isImprovingPrompt s; error := error s;
         activeTab := activeTab s; crop := crop s; completedCrop := v;
         aspect := aspect s; isComparing := isComparing s;
         imageDimensions := imageDimensions s; expandRect := expandRect s;
         dragState := dragState s;
         retouchReferenceImage := retouchReferenceImage s;
         isGeneratingImage := isGeneratingImage s;
         isConfirmModalOpen := isConfirmModalOpen s |}
  | setAspect v =>
      {| history := history s; historyIndex := historyIndex s;
         prompt := prompt s; isLoading := isLoading s;
         isUpscaling := isUpscaling s;
         isImprovingPrompt := isImprovingPrompt s; error := error s;
         activeTab := activeTab s; crop := crop s;
         completedCrop := completedCrop s; aspect := v;
         isComparing := isComparing s; imageDimensions := imageDimensions s;
         expandRect := expandRect s; dragState := dragState s;
         retouchReferenceImage := retouchReferenceImage s;
         isGeneratingImage := isGeneratingImage s;
         isConfirmModalOpen := isConfirmModalOpen s |}
  | setIsComparing v =>
      {| history := history s; historyIndex := historyIndex s;
         prompt := prompt s; isLoading := isLoading s;
         isUpscaling := isUpscaling s;
         isImprovingPrompt := isImprovingPrompt s; error := error s;
         activeTab := activeTab s; crop := crop s;
         completedCrop := completedCrop s; aspect := aspect s;
         isComparing := v; imageDimensions := imageDimensions s;
         expandRect := expandRect s; dragState := dragState s;
         retouchReferenceImage := retouchReferenceImage s;
         isGeneratingImage := isGeneratingImage s;
         isConfirmModalOpen := isConfirmModalOpen s |}
  | setImageDimensions v =>
      {| history := history s; historyIndex := historyIndex s;
         prompt := prompt s; isLoading := isLoading s;
         isUpscaling := isUpscaling s;
         isImprovingPrompt := isImprovingPrompt s; error := error s;
         activeTab := activeTab s; crop := crop s;
         completedCrop := completedCrop s; aspect := aspect s;
         isComparing := isComparing s; imageDimensions := v;
         expandRect := expandRect s; dragState := dragState s;
         retouchReferenceImage := retouchReferenceImage s;
         isGeneratingImage := isGeneratingImage s;
         isConfirmModalOpen := isConfirmModalOpen s |}
  | setExpandRect v =>
      {| history := history s; historyIndex := historyIndex s;
         prompt := prompt s; isLoading := isLoading s;
         isUpscaling := isUpscaling s;
         isImprovingPrompt := isImprovingPrompt s; error := error s;
         activeTab := activeTab s; crop := crop s;
         completedCrop := completedCrop s; aspect := aspect s;
         isComparing := isComparing s; imageDimensions := imageDimensions s;
         expandRect := v; dragState := dragState s;
         retouchReferenceImage := retouchReferenceImage s;
         isGeneratingImage := isGeneratingImage s;
         isConfirmModalOpen := isConfirmModalOpen s |}
  | setDragState v =>
      {| history := history s; historyIndex := historyIndex s;
         prompt := prompt s; isLoading := isLoading s;
         isUpscaling := isUpscaling s;
         isImprovingPrompt := isImprovingPrompt s; error := error s;
         activeTab := activeTab s; crop := crop s;
         completedCrop := completedCrop s; aspect := aspect s;
         isComparing := isComparing s; imageDimensions := imageDimensions s;
         expandRect := expandRect s; dragState := v;
         retouchReferenceImage := retouchReferenceImage s;
         isGeneratingImage := isGeneratingImage s;
         isConfirmModalOpen := isConfirmModalOpen s |}
  | setRetouchReferenceImage v =>
      {| history := history s; historyIndex := historyIndex s;
         prompt := prompt s; isLoading := isLoading s;
         isUpscaling := isUpscaling s;
         isImprovingPrompt := isImprovingPrompt s; error := error s;
         activeTab := activeTab s; crop := crop s;
         completedCrop := completedCrop s; aspect := aspect s;
         isComparing := isComparing s; imageDimensions := imageDimensions s;
         expandRect := expandRect s; dragState := dragState s;
         retouchReferenceImage := v;
         isGeneratingImage := isGeneratingImage s;
         isConfirmModalOpen := isConfirmModalOpen s |}
  | setIsGeneratingImage v =>
      {| history := history s; historyIndex := historyIndex s;
         prompt := prompt s; isLoading := isLoading s;
         isUpscaling := isUpscaling s;
         isImprovingPrompt := isImprovingPrompt s; error := error s;
         activeTab := activeTab s; crop := crop s;
         completedCrop := completedCrop s; aspect := aspect s;
         isComparing := isComparing s; imageDimensions := imageDimensions s;
         expandRect := expandRect s; dragState := dragState s;
         retouchReferenceImage := retouchReferenceImage s;
         isGeneratingImage := v;
         isConfirmModalOpen := isConfirmModalOpen s |}
  | setIsConfirmModalOpen v =>
      {| history := history s; historyIndex := historyIndex s;
         prompt := prompt s; isLoading := isLoading s;
         isUpscaling := isUpscaling s;
         isImprovingPrompt := isImprovingPrompt s; error := error s;
         activeTab := activeTab s; crop := crop s;
         completedCrop := completedCrop s; aspect := aspect s;
         isComparing := isComparing s; imageDimensions := imageDimensions s;
         expandRect := expandRect s; dragState := dragState s;
         retouchReferenceImage := retouchReferenceImage s;
         isGeneratingImage := isGeneratingImage s; isConfirmModalOpen := v |}
  end.

(** React applies the queued updates of one handler run in order. *)
Definition commit (s : State) (updates : list SetState) : State :=
  fold_left apply_set updates s.

(** ** Derived values of a render *)

(** [const currentImage = history[historyIndex] ?? null]. *)
Definition currentImage (c : State) : option File :=
  at_index (history c) (historyIndex c).

(** [const originalImage = history[0] ?? null]. *)
Definition originalImage (c : State) : option File :=
  at_index (history c) 0.

Definition canUndo (c : State) : bool := historyIndex c >? 0.

Definition canRedo (c : State) : bool :=
  historyIndex c <? Z.of_nat (length (history c)) - 1.

(** ** Edit history handlers

    The argument [c] is the render whose values the callback closed over. *)

Definition addImageToHistory (c : State) (newImageFile : File) : list SetState :=
  let newHistory := slice (history c) 0 (historyIndex c + 1) ++ [newImageFile] in
  [ setHistory newHistory;
    setHistoryIndex (Z.of_nat (length newHistory) - 1);
    setCrop None;
    setCompletedCrop None;
    setExpandRect None ].

Definition handleImageUpload (file : File) : list SetState :=
  [ setError None;
    setHistory [file];
    setHistoryIndex 0;
    setActiveTab Tab_retouch;
    setCrop None;
    setCompletedCrop None;
    setExpandRect None;
    setImageDimensions None ].

Definition handleGeneratedImage (file : File) : list SetState :=
  handleImageUpload file ++ [ setIsGeneratingImage false ].

Definition handleUndo (c : State) : list SetState :=
  if canUndo c then [ setHistoryIndex (historyIndex c - 1) ] else [].

Definition handleRedo (c : State) : list SetState :=
  if canRedo c then [ setHistoryIndex (historyIndex c + 1) ] else [].

Definition handleReset (c : State) : list SetState :=
  if Z.of_nat (length (history c)) >? 0
  then [ setHistoryIndex 0; setError None ]
  else [].

Definition handleUploadNew : list SetState :=
  [ setHistory [];
    setHistoryIndex (-1);
    setError None;
    setPrompt "";
    setRetouchReferenceImage None;
    setImageDimensions None ].

Definition handleLogoClick (c : State) : list SetState :=
  if historyIndex c >? 0 then [ setIsConfirmModalOpen true ] else handleUploadNew.

Definition handleConfirmLeave : list SetState :=
  handleUploadNew ++ [ setIsConfirmModalOpen false ].

Definition handleCancelLeave : list SetState := [ setIsConfirmModalOpen false ].

(** [handleFileSelect(files)]: [files && files[0]]. *)
Definition handleFileSelect (files : option (list File)) : list SetState :=
  match files with
  | Some (file :: _) => handleImageUpload file
  | _ => []
  end.

Definition handleImageLoad (c : State) (naturalWidth naturalHeight : float)
  : list SetState :=
  match imageDimensions c with
  | None => [ setImageDimensions (Some (Dim.mk naturalWidth naturalHeight)) ]
  | Some _ => []
  end.

(** The "Try Again" button of the error view. *)
Definition handleTryAgain : list SetState :=
  [ setError None; setIsLoading false; setIsUpscaling false;
    setIsImprovingPrompt false ].

(** ** Expand frame: the DOM the handlers measure *)

(** What the two refs give when a handler runs: [None] is a ref whose
    [current] is null, otherwise the element's [getBoundingClientRect()].
    [now] is [Date.now()]. *)
Record Env : Type := mkEnv {
  imgRef : option DOMRect.t;
  imageContainerRef : option DOMRect.t;
  now : Z
}.

(** Body of the 50 ms timer started when the expand tab is selected. *)
Definition initExpandRect (env : Env) : list SetState :=
  match imgRef env, imageContainerRef env with
  | Some imgRect, Some containerRect =>
      [ setExpandRect (Some
          {| top := DOMRect.top imgRect - DOMRect.top containerRect;
             left := DOMRect.left imgRect - DOMRect.left containerRect;
             width := DOMRect.width imgRect;
             height := DOMRect.height imgRect |}) ]
  | _, _ => []
  end.

Definition handleExpandMouseDown (c : State) (handle : string)
  (clientX clientY : float) : list SetState :=
  match expandRect c with
  | Some r =>
      [ setDragState (Some {| handle := handle; initialRect := r;
                              initialMouseX := clientX;
                              initialMouseY := clientY |}) ]
  | None => []
  end.

(** The displayed image's box relative to the container, as [handleMouseMove]
    computes it: (imgTop, imgLeft, imgRight, imgBottom). *)
Definition imgTop (imgRect containerRect : DOMRect.t) : float :=
  DOMRect.top imgRect - DOMRect.top containerRect.
Definition imgLeft (imgRect containerRect : DOMRect.t) : float :=
  DOMRect.left imgRect - DOMRect.left containerRect.
Definition imgRight (imgRect containerRect : DOMRect.t) : float :=
  imgLeft imgRect containerRect + DOMRect.width imgRect.
Definition imgBottom (imgRect containerRect : DOMRect.t) : float :=
  imgTop imgRect containerRect + DOMRect.height imgRect.

Definition handleMouseMove (c : State) (env : Env) (clientX clientY : float)
  : list SetState :=
  match dragState c, imgRef env, imageContainerRef env with
  | Some d, Some imgRect, Some containerRect =>
      let handle := handle d in
      let initialRect := initialRect d in
      let deltaX := clientX - initialMouseX d in
      let deltaY := clientY - initialMouseY d in
      let imgTop := imgTop imgRect containerRect in
      let imgLeft := imgLeft imgRect containerRect in
      let imgRight := imgRight imgRect containerRect in
      let imgBottom := imgBottom imgRect containerRect in
      let newTop :=
        if includes handle "n" then top initialRect + deltaY
        else top initialRect in
      let newBottom :=
        if includes handle "s"
        then top initialRect + height initialRect + deltaY
        else top initialRect + height initialRect in
      let newLeft :=
        if includes handle "w" then left initialRect + deltaX
        else left initialRect in
      let newRight :=
        if includes handle "e"
        then left initialRect + width initialRect + deltaX
        else left initialRect + width initialRect in
      let newTop := if imgTop <? newTop then imgTop else newTop in
      let newLeft := if imgLeft <? newLeft then imgLeft else newLeft in
      let newRight := if newRight <? imgRight then imgRight else newRight in
      let newBottom := if newBottom <? imgBottom then imgBottom else newBottom in
      [ setExpandRect (Some {| top := newTop;
                               left := newLeft;
                               width := newRight - newLeft;
                               height := newBottom - newTop |}) ]
  | _, _, _ => []
  end%float.

Definition handleMouseUp : list SetState := [ setDragState None ].

(** ** Exceptions: a small error monad for [try] bodies *)

Definition Throws (A : Type) : Type := (Thrown + A)%type.

Definition ret {A : Type} (a : A) : Throws A := inr a.
Definition throw {A : Type} (e : Thrown) : Throws A := inl e.
Definition bind {A B : Type} (m : Throws A) (k : A -> Throws B) : Throws B :=
  match m with
  | inl e => inl e
  | inr a => k a
  end.

Notation "x <- m ;; k" := (bind m (fun x => k))
  (at level 61, m at next level, right associativity).

(** [try { body } catch (err) { handler(err) } finally { cleanup }] where the
    body issues its state updates only once nothing can throw any more. *)
Definition try_catch_finally (body : Throws (list SetState))
  (handler : Thrown -> list SetState) (cleanup : list SetState)
  : list SetState :=
  match body with
  | inr updates => updates
  | inl err => handler err
  end ++ cleanup.

(** [err instanceof Error ? err.message : 'An unknown error occurred.'] *)
Definition errorMessage (err : Thrown) : string :=
  match err with
  | Error message => message
  | NotAnError => "An unknown error occurred."
  end.

(** ** [dataURLtoFile] *)

(** [str.split(sep)] for a one-character separator. *)
Fixpoint split (sep : ascii) (str : string) : list string :=
  match str with
  | EmptyString => [EmptyString]
  | String ch rest =>
      if Ascii.eqb ch sep then EmptyString :: split sep rest
      else match split sep rest with
           | piece :: pieces => String ch piece :: pieces
           | [] => [String ch EmptyString]
           end
  end.

(** Characters the regular-expression dot does not match: U+000A and U+000D
    (one byte each), U+2028 and U+2029 (E2 80 A8 and E2 80 A9 in UTF-8). *)
Definition isLineTerminator (ch : ascii) : bool :=
  let n := nat_of_ascii ch in ((n =? 10) || (n =? 13))%nat.

Definition startsWithLineSeparator (str : string) : bool :=
  match str with
  | String c1 (String c2 (String c3 _)) =>
      ((nat_of_ascii c1 =? 226) && (nat_of_ascii c2 =? 128)
       && ((nat_of_ascii c3 =? 168) || (nat_of_ascii c3 =? 169)))%nat
  | _ => false
  end.

(** The [(.*?);] part of the pattern, anchored at the start of [str]. *)
Fixpoint lazyGroupThenSemicolon (str : string) : option string :=
  match str with
  | EmptyString => None
  | String ch rest =>
      if Ascii.eqb ch ";" then Some EmptyString
      else if isLineTerminator ch || startsWithLineSeparator str then None
      else option_map (String ch) (lazyGroupThenSemicolon rest)
  end.

(** [str.match(/:(.*?);/)]: the first capture group of the leftmost match. *)
Fixpoint mimeMatch (str : string) : option string :=
  match str with
  | EmptyString => None
  | String ch rest =>
      if Ascii.eqb ch ":" then
        match lazyGroupThenSemicolon rest with
        | Some group => Some group
        | None => mimeMatch rest
        end
      else mimeMatch rest
  end.

(** A decoder to run concrete sessions with: it takes the payload to be the
    binary string itself. *)
Definition atob_identity (encoded : string) : Throws string := ret encoded.

Section Browser.

(** The browser's base64 decoder: the decoded binary string, or the
    exception it throws on malformed input. *)
Variable atob : string -> Throws string.

Definition dataURLtoFile (dataurl filename : string) : Throws File :=
  match split "," dataurl with
  | arr0 :: arr1 :: _ =>
      match mimeMatch arr0 with
      | None | Some EmptyString =>
          throw (Error "Could not parse MIME type from data URL")
      | Some mime =>
          bstr <- atob arr1 ;;
          ret {| file_name := filename; file_type := mime; file_data := bstr |}
      end
  | _ => throw (Error "Invalid data URL")
  end.

(** ** Actions that call the generative service *)

(** A call into [services/geminiService], with its arguments. *)
Inductive Request : Type :=
| generateRetouchedImage (image : File) (userPrompt : string)
    (referenceImage : option File)
| generateFilteredImage (image : File) (filterPrompt : string)
| generateAdjustedImage (image : File) (adjustmentPrompt : string)
| generateExpandedImage (image : File) (targetWidth targetHeight : float)
    (imageOffsetX imageOffsetY : float)
| upscaleImage (image : File).

(** How the awaited promise settles. *)
Inductive Outcome : Type :=
| Resolved (dataUrl : string)
| Rejected (err : Thrown).

Definition await (o : Outcome) : Throws string :=
  match o with
  | Resolved v => ret v
  | Rejected e => throw e
  end.

(** Each async handler is given in two parts: [handleX] runs up to the
    [await] and returns the updates issued so far with the request made (if
    any); [handleX_resume] is the rest of the [try] statement, run when the
    request settles, still with the values of the render [c] the handler
    closed over. *)

Definition handleGenerate (c : State) : list SetState * option Request :=
  match currentImage c with
  | None => ([ setError (Some "No image loaded to edit.") ], None)
  | Some image =>
      if trim_is_empty (prompt c)
      then ([ setError (Some "Please enter a description for your edit.") ], None)
      else ([ setIsLoading true; setError None ],
            Some (generateRetouchedImage image (prompt c) (retouchReferenceImage c)))
  end.

Definition handleGenerate_resume (c : State) (env : Env) (o : Outcome)
  : list SetState :=
  try_catch_finally
    (editedImageUrl <- await o ;;
     newImageFile <- dataURLtoFile editedImageUrl
       ("edited-" ++ Z_to_string (now env) ++ ".png")%string ;;
     ret (addImageToHistory c newImageFile ++ [ setRetouchReferenceImage None ]))
    (fun err =>
       [ setError (Some ("Failed to generate the image. " ++ errorMessage err)%string) ])
    [ setIsLoading false ].

Definition handleApplyFilter (c : State) (filterPrompt : string)
  : list SetState * option Request :=
  match currentImage c with
  | None => ([ setError (Some "No image loaded to apply a filter to.") ], None)
  | Some image =>
      ([ setIsLoading true; setError None ],
       Some (generateFilteredImage image filterPrompt))
  end.

Definition handleApplyFilter_resume (c : State) (env : Env) (o : Outcome)
  : list SetState :=
  try_catch_finally
    (filteredImageUrl <- await o ;;
     newImageFile <- dataURLtoFile filteredImageUrl
       ("filtered-" ++ Z_to_string (now env) ++ ".png")%string ;;
     ret (addImageToHistory c newImageFile))
    (fun err =>
       [ setError (Some ("Failed to apply the filter. " ++ errorMessage err)%string) ])
    [ setIsLoading false ].

Definition handleApplyAdjustment (c : State) (adjustmentPrompt : string)
  : list SetState * option Request :=
  match currentImage c with
  | None => ([ setError (Some "No image loaded to apply an adjustment to.") ], None)
  | Some image =>
      ([ setIsLoading true; setError None ],
       Some (generateAdjustedImage image adjustmentPrompt))
  end.

Definition handleApplyAdjustment_resume (c : State) (env : Env) (o : Outcome)
  : list SetState :=
  try_catch_finally
    (adjustedImageUrl <- await o ;;
     newImageFile <- dataURLtoFile adjustedImageUrl
       ("adjusted-" ++ Z_to_string (now env) ++ ".png")%string ;;
     ret (addImageToHistory c newImageFile))
    (fun err =>
       [ setError (Some ("Failed to apply the adjustment. " ++ errorMessage err)%string) ])
    [ setIsLoading false ].

(** The scale factor between natural and displayed pixels. *)
Definition scale (imageDimensions : Dim.t) (displayedImageRect : DOMRect.t) : float :=
  Dim.width imageDimensions / DOMRect.width displayedImageRect.

Definition targetWidth (r : ExpandRect) (scale : float) : float :=
  Math_round (width r * scale).

Definition targetHeight (r : ExpandRect) (scale : float) : float :=
  Math_round (height r * scale).

Definition handleApplyExpand (c : State) (env : Env)
  : list SetState * option Request :=
  match currentImage c, expandRect c, imgRef env, imageDimensions c,
        imageContainerRef env with
  | Some image, Some r, Some displayedImageRect, Some dims, Some containerRect =>
      let scale := scale dims displayedImageRect in
      let targetWidth := targetWidth r scale in
      let targetHeight := targetHeight r scale in
      let imageOffsetX :=
        Math_round ((DOMRect.left displayedImageRect
                     - (DOMRect.left containerRect + left r)) * scale) in
      let imageOffsetY :=
        Math_round ((DOMRect.top displayedImageRect
                     - (DOMRect.top containerRect + top r)) * scale) in
      if (targetWidth <=? Dim.width dims)%float
         && (targetHeight <=? Dim.height dims)%float
      then ([ setError (Some
                "Please expand the frame outwards to generate a larger image.") ],
            None)
      else ([ setIsLoading true; setError None ],
            Some (generateExpandedImage image targetWidth targetHeight
                    imageOffsetX imageOffsetY))
  | _, _, _, _, _ =>
      ([ setError (Some
           "Could not determine expansion dimensions. Please try selecting the expand tool again.") ],
       None)
  end.

Definition handleApplyExpand_resume (c : State) (env : Env) (o : Outcome)
  : list SetState :=
  try_catch_finally
    (expandedImageUrl <- await o ;;
     newImageFile <- dataURLtoFile expandedImageUrl
       ("expanded-" ++ Z_to_string (now env) ++ ".png")%string ;;
     ret (addImageToHistory c newImageFile))
    (fun err =>
       [ setError (Some ("Failed to expand the image. " ++ errorMessage err)%string) ])
    [ setIsLoading false ].

Definition handleUpscale (c : State) : list SetState * option Request :=
  match currentImage c with
  | None => ([], None)
  | Some image => ([ setIsUpscaling true; setError None ], Some (upscaleImage image))
  end.

Definition handleUpscale_resume (c : State) (env : Env) (o : Outcome)
  : list SetState :=
  try_catch_finally
    (upscaledImageUrl <- await o ;;
     newImageFile <- dataURLtoFile upscaledImageUrl
       ("upscaled-" ++ Z_to_string (now env) ++ ".png")%string ;;
     ret (addImageToHistory c newImageFile))
    (fun err =>
       [ setError (Some ("Failed to upscale image. " ++ errorMessage err)%string) ])
    [ setIsUpscaling false ].

(** The continuation that belongs to a request. *)
Definition resume (r : Request) : State -> Env -> Outcome -> list SetState :=
  match r with
  | generateRetouchedImage _ _ _ => handleGenerate_resume
  | generateFilteredImage _ _ => handleApplyFilter_resume
  | generateAdjustedImage _ _ => handleApplyAdjustment_resume
  | generateExpandedImage _ _ _ _ _ => handleApplyExpand_resume
  | upscaleImage _ => handleUpscale_resume
  end.

(** ** [ExpandPanel] (src/unnamed/part_001) *)

Definition newDimensions (imageDimensions : option Dim.t)
  (expandRect : option ExpandRect) (displayedImageRect : option DOMRect.t)
  : option (float * float) :=
  match imageDimensions, expandRect, displayedImageRect with
  | Some dims, Some r, Some displayed =>
      let scale := (Dim.width dims / DOMRect.width displayed)%float in
      let targetWidth := Math_round (width r * scale) in
      let targetHeight := Math_round (height r * scale) in
      Some (targetWidth, targetHeight)
  | _, _, _ => None
  end.

Definition isExpanded (imageDimensions : option Dim.t)
  (expandRect : option ExpandRect) (displayedImageRect : option DOMRect.t)
  : bool :=
  match newDimensions imageDimensions expandRect displayedImageRect,
        imageDimensions with
  | Some (w, h), Some dims =>
      (Dim.width dims <? w)%float || (Dim.height dims <? h)%float
  | _, _ => false
  end.

(** ** What is on screen *)

(** A string used as a condition: empty is falsy. *)
Definition truthy (str : string) : bool :=
  match str with
  | EmptyString => false
  | String _ _ => true
  end.

Inductive View : Type := ErrorView | StartView | EditorView.

(** The three branches of [renderContent].  [currentImageUrl] is the object
    URL an effect derives from [currentImage]; it is null exactly when
    [currentImage] is. *)
Definition renderContent (s : State) : View :=
  match error s with
  | Some (String _ _) => ErrorView
  | _ =>
      match currentImage s with
      | None => StartView
      | Some _ => EditorView
      end
  end.

Definition inEditor (s : State) : bool :=
  match renderContent s with
  | EditorView => true
  | _ => false
  end.

(** The eight handles drawn on the expand frame. *)
Definition handles : list string := ["n"; "s"; "e"; "w"; "ne"; "nw"; "se"; "sw"].

(** ** The running application

    The component state together with the requests whose promise has not
    settled yet (each with the render its handler closed over) and the
    pending timer of the expand-tab effect. *)

Record Pending : Type := mkPending {
  request : Request;
  closure : State
}.

Record Sys : Type := mkSys {
  ui : State;
  inflight : list Pending;
  expandTimer : bool
}.

Definition initialSys : Sys :=
  {| ui := initialState; inflight := []; expandTimer := false |}.

(** What can happen: a user gesture on a control, a browser callback, or the
    settling of an in-flight request.  The panels' own input state (the
    active prompt of [FilterPanel] and [AdjustmentPanel]) comes with the
    click.  The crop panel's apply button and the prompt-improvement button
    are not part of this event set. *)
Inductive Event : Type :=
| FileSelect (files : option (list File))
| GenerateImageClick
| ModalClose
| ModalImageGenerated (file : File)
| PromptChange (value : string)
| PromptEnter
| GenerateClick
| ReferenceImageSelect (file : File)
| ReferenceImageRemove
| FilterApplyClick (activePrompt : string)
| AdjustmentApplyClick (activePrompt : string)
| ExpandApplyClick
| UpscaleClick
| UndoClick
| RedoClick
| ResetClick
| UploadNewClick
| TryAgainClick
| LogoClick
| ConfirmLeaveClick
| CancelLeaveClick
| TabClick (tab : Tab)
| CropChange (c : Crop.t)
| CropComplete (c : Crop.t)
| ComparePress (down : bool)
| ImageLoad (naturalWidth naturalHeight : float)
| ExpandTimerFires
| HandleMouseDown (handle : string) (clientX clientY : float)
| WindowMouseMove (clientX clientY : float)
| WindowMouseUp
| Settle (i : nat) (o : Outcome).

(** Is the control an event acts on rendered and not [disabled] (for a
    window listener or timer: is it registered)? *)
Definition enabled (env : Env) (sys : Sys) (ev : Event) : bool :=
  let s := ui sys in
  match ev with
  | FileSelect _ | GenerateImageClick =>
      match renderContent s with StartView => true | _ => false end
  | ModalClose | ModalImageGenerated _ =>
      match renderContent s with StartView => isGeneratingImage s | _ => false end
  | PromptChange _ | PromptEnter =>
      inEditor s && Tab_eqb (activeTab s) Tab_retouch
      && negb (isLoading s || isImprovingPrompt s)
  | GenerateClick =>
      inEditor s && Tab_eqb (activeTab s) Tab_retouch
      && negb (isLoading s || trim_is_empty (prompt s))
  | ReferenceImageSelect _ =>
      inEditor s && Tab_eqb (activeTab s) Tab_retouch
  | ReferenceImageRemove =>
      inEditor s && Tab_eqb (activeTab s) Tab_retouch
      && match retouchReferenceImage s with Some _ => true | None => false end
  | FilterApplyClick activePrompt =>
      inEditor s && Tab_eqb (activeTab s) Tab_filters
      && truthy activePrompt
      && negb (isLoading s || trim_is_empty activePrompt)
  | AdjustmentApplyClick activePrompt =>
      inEditor s && Tab_eqb (activeTab s) Tab_adjust
      && truthy activePrompt
      && negb (isLoading s || trim_is_empty activePrompt)
  | ExpandApplyClick =>
      inEditor s && Tab_eqb (activeTab s) Tab_expand
      && negb (isLoading s
               || negb (isExpanded (imageDimensions s) (expandRect s) (imgRef env)))
  | UpscaleClick => inEditor s && negb (isUpscaling s || isLoading s)
  | UndoClick | ResetClick | ComparePress _ => inEditor s && canUndo s
  | RedoClick => inEditor s && canRedo s
  | UploadNewClick | TabClick _ => inEditor s
  | TryAgainClick =>
      match renderContent s with ErrorView => true | _ => false end
  | LogoClick => true
  | ConfirmLeaveClick | CancelLeaveClick => isConfirmModalOpen s
  | CropChange _ | CropComplete _ => inEditor s && Tab_eqb (activeTab s) Tab_crop
  | ImageLoad _ _ => inEditor s && negb (Tab_eqb (activeTab s) Tab_crop)
  | ExpandTimerFires => expandTimer sys
  | HandleMouseDown handle _ _ =>
      inEditor s && Tab_eqb (activeTab s) Tab_expand
      && match expandRect s with Some _ => true | None => false end
      && existsb (String.eqb handle) handles
  | WindowMouseMove _ _ | WindowMouseUp =>
      match dragState s with Some _ => true | None => false end
  | Settle i _ => (i <? length (inflight sys))%nat
  end.

(** The handler behind an event: its state updates and the request it
    starts, if any. *)
Definition handler (env : Env) (sys : Sys) (ev : Event)
  : list SetState * option Request :=
  let c := ui sys in
  match ev with
  | FileSelect files => (handleFileSelect files, None)
  | GenerateImageClick => ([ setIsGeneratingImage true ], None)
  | ModalClose => ([ setIsGeneratingImage false ], None)
  | ModalImageGenerated file => (handleGeneratedImage file, None)
  | PromptChange value => ([ setPrompt value ], None)
  | PromptEnter | GenerateClick => handleGenerate c
  | ReferenceImageSelect file => ([ setRetouchReferenceImage (Some file) ], None)
  | ReferenceImageRemove => ([ setRetouchReferenceImage None ], None)
  | FilterApplyClick activePrompt =>
      if truthy activePrompt then handleApplyFilter c activePrompt else ([], None)
  | AdjustmentApplyClick activePrompt =>
      if truthy activePrompt then handleApplyAdjustment c activePrompt else ([], None)
  | ExpandApplyClick => handleApplyExpand c env
  | UpscaleClick => handleUpscale c
  | UndoClick => (handleUndo c, None)
  | RedoClick => (handleRedo c, None)
  | ResetClick => (handleReset c, None)
  | UploadNewClick => (handleUploadNew, None)
  | TryAgainClick => (handleTryAgain, None)
  | LogoClick => (handleLogoClick c, None)
  | ConfirmLeaveClick => (handleConfirmLeave, None)
  | CancelLeaveClick => (handleCancelLeave, None)
  | TabClick tab => ([ setActiveTab tab ], None)
  | CropChange cr => ([ setCrop (Some cr) ], None)
  | CropComplete cr => ([ setCompletedCrop (Some cr) ], None)
  | ComparePress down => ([ setIsComparing down ], None)
  | ImageLoad naturalWidth naturalHeight =>
      (handleImageLoad c naturalWidth naturalHeight, None)
  | ExpandTimerFires => (initExpandRect env, None)
  | HandleMouseDown handle clientX clientY =>
      (handleExpandMouseDown c handle clientX clientY, None)
  | WindowMouseMove clientX clientY => (handleMouseMove c env clientX clientY, None)
  | WindowMouseUp => (handleMouseUp, None)
  | Settle i o =>
      match nth_error (inflight sys) i with
      | Some p => (resume (request p) (closure p) env o, None)
      | None => ([], None)
      end
  end.

(** [arr] without its [i]-th element. *)
Definition remove_nth {A : Type} (i : nat) (arr : list A) : list A :=
  firstn i arr ++ skipn (S i) arr.

(** The effect keyed on [activeTab]: leaving the expand tab drops the frame
    (and the effect's cleanup cancels the timer), entering it starts the
    timer that measures the image. *)
Definition activeTabEffect (before : Tab) (sys : Sys) : Sys :=
  if Tab_eqb before (activeTab (ui sys)) then sys
  else if Tab_eqb (activeTab (ui sys)) Tab_expand
       then {| ui := ui sys; inflight := inflight sys; expandTimer := true |}
       else {| ui := commit (ui sys) [ setExpandRect None ];
               inflight := inflight sys; expandTimer := false |}.

(** One event: nothing happens on a control that is not enabled; otherwise
    the handler's updates are committed, a started request joins the
    in-flight list, a settled one leaves it, and the effects run. *)
Definition dispatch (sys : Sys) (step : Env * Event) : Sys :=
  let (env, ev) := step in
  if enabled env sys ev then
    let (updates, started) := handler env sys ev in
    let remaining :=
      match ev with
      | Settle i _ => remove_nth i (inflight sys)
      | _ => inflight sys
      end in
    let timer :=
      match ev with
      | ExpandTimerFires => false
      | _ => expandTimer sys
      end in
    activeTabEffect (activeTab (ui sys))
      {| ui := commit (ui sys) updates;
         inflight :=
           match started with
           | Some r => remaining ++ [ {| request := r; closure := ui sys |} ]
           | None => remaining
           end;
         expandTimer := timer |}
  else sys.

Definition run (sys : Sys) (steps : list (Env * Event)) : Sys :=
  fold_left dispatch steps sys.

(** ** The service's reply ([services/geminiService], second part of
    src/App.tsx) *)

(** [String.prototype.trim]: the leading white space characters are
    dropped, then the string is cut where only white space follows. *)
Fixpoint trimStart (str : string) : string :=
  match str with
  | EmptyString => EmptyString
  | String c1 rest1 =>
      if isWhiteSpace1 c1 then trimStart rest1
      else
        match rest1 with
        | EmptyString => str
        | String c2 rest2 =>
            if isWhiteSpace2 c1 c2 then trimStart rest2
            else
              match rest2 with
              | EmptyString => str
              | String c3 rest3 =>
                  if isWhiteSpace3 c1 c2 c3 then trimStart rest3 else str
              end
        end
  end.

Fixpoint trimEnd (str : string) : string :=
  match str with
  | EmptyString => EmptyString
  | String ch rest =>
      if trim_is_empty str then EmptyString else String ch (trimEnd rest)
  end.

Definition trim (str : string) : string := trimEnd (trimStart str).

(** The double quote character, for messages that quote a text. *)
Definition dquote : string := String (ascii_of_nat 34) EmptyString.

(** [value || ''] and the truthiness of an optional string. *)
Definition orEmpty (value : option string) : string :=
  match value with
  | Some (String ch rest) => String ch rest
  | _ => EmptyString
  end.

(** The fields of a [GenerateContentResponse] that [handleApiResponse]
    reads; [parts] stands for [content?.parts]. *)
Record InlineData : Type := mkInlineData {
  mimeType : string;
  data : string
}.

Record Part : Type := mkPart {
  inlineData : option InlineData;
  partText : option string
}.

Record Candidate : Type := mkCandidate {
  parts : option (list Part);
  finishReason : option string
}.

Record GenerateContentResponse : Type := mkResponse {
  blockReason : option string;
  blockReasonMessage : option string;
  candidates : option (list Candidate);
  text : option string
}.

(** [response.candidates?.[0]]. *)
Definition firstCandidate (response : GenerateContentResponse) : option Candidate :=
  match candidates response with
  | Some (candidate :: _) => Some candidate
  | _ => None
  end.

(** [response.candidates?.[0]?.content?.parts?.find(part => part.inlineData)],
    then its [inlineData]. *)
Definition imagePartFromResponse (response : GenerateContentResponse)
  : option InlineData :=
  match firstCandidate response with
  | Some {| parts := Some ps |} =>
      match find (fun part => match inlineData part with
                              | Some _ => true
                              | None => false
                              end) ps with
      | Some part => inlineData part
      | None => None
      end
  | _ => None
  end.

Definition handleApiResponse (response : GenerateContentResponse)
  (context : string) : Throws string :=
  match orEmpty (blockReason response) with
  | String _ _ as reason =>
      throw (Error ("Request was blocked. Reason: " ++ reason ++ ". "
                    ++ orEmpty (blockReasonMessage response))%string)
  | EmptyString =>
      match imagePartFromResponse response with
      | Some image =>
          ret ("data:" ++ mimeType image ++ ";base64," ++ data image)%string
      | None =>
          let finishReason :=
            match firstCandidate response with
            | Some candidate => orEmpty (finishReason candidate)
            | None => EmptyString
            end in
          if truthy finishReason && negb (String.eqb finishReason "STOP")
          then throw (Error ("Image generation for " ++ context
                             ++ " stopped unexpectedly. Reason: " ++ finishReason
                             ++ ". This often relates to safety settings.")%string)
          else
            let textFeedback := trim (orEmpty (text response)) in
            throw (Error ("The AI model did not return an image for the "
                          ++ context ++ ". "
                          ++ (if truthy textFeedback
                              then "The model responded with text: "
                                   ++ dquote ++ textFeedback ++ dquote
                              else "This can happen due to safety filters or if the request is too complex. Please try rephrasing your prompt to be more direct."))%string)
      end
  end.

(** The [context] each service function passes to [handleApiResponse]. *)
Definition contextOf (r : Request) : string :=
  match r with
  | generateRetouchedImage _ _ _ => "retouch"
  | generateFilteredImage _ _ => "filter"
  | generateAdjustedImage _ _ => "adjustment"
  | generateExpandedImage _ _ _ _ _ => "expand"
  | upscaleImage _ => "upscale"
  end.

(** How a service function settles once the model has replied: with the
    data URL [handleApiResponse] returns, or with what it throws. *)
Definition settleWith (r : Request) (response : GenerateContentResponse)
  : Outcome :=
  match handleApiResponse response (contextOf r) with
  | inr dataUrl => Resolved dataUrl
  | inl err => Rejected err
  end.

(** ** Repeated clicks *)

(** [n] clicks on a history button, each in the render the previous click
    produced. *)
Fixpoint clicks (handler : State -> list SetState) (n : nat) (s : State) : State :=
  match n with
  | O => s
  | S n' => clicks handler n' (commit s (handler s))
  end.

(** ** Vocabulary of the properties *)

(** The history invariant of the data model: the cursor points into a
    non-empty history, and is -1 exactly on the empty one. *)
Definition history_invariant (s : State) : Prop :=
  (Z.of_nat (length (history s)) > 0 ->
   0 <= historyIndex s < Z.of_nat (length (history s)))
  /\ (historyIndex s = -1 <-> Z.of_nat (length (history s)) = 0).

(** The operations of the edit history store. *)
Inductive HistoryOp : Type :=
| ReplaceAll (file : File)
| Append (file : File)
| Undo
| Redo
| Reset
| UploadNew.

Definition history_op (op : HistoryOp) (c : State) : list SetState :=
  match op with
  | ReplaceAll file => handleImageUpload file
  | Append file => addImageToHistory c file
  | Undo => handleUndo c
  | Redo => handleRedo c
  | Reset => handleReset c
  | UploadNew => handleUploadNew
  end.


(** The frame [r] contains the displayed image's box (both relative to the
    container), with the comparisons and sums of the claim evaluated on
    doubles: top <= imgTop, left <= imgLeft, left + width >= imgLeft +
    imgWidth, top + height >= imgTop + imgHeight. *)
Definition containsImage (imgRect containerRect : DOMRect.t) (r : ExpandRect)
  : Prop :=
  (top r <=? imgTop imgRect containerRect)%float = true
  /\ (left r <=? imgLeft imgRect containerRect)%float = true
  /\ (imgLeft imgRect containerRect + DOMRect.width imgRect
      <=? left r + width r)%float = true
  /\ (imgTop imgRect containerRect + DOMRect.height imgRect
      <=? top r + height r)%float = true.

(** A double that is a number (not NaN). *)
Definition isNumber (x : float) : Prop := is_nan x = false.

(** The frame [r] as [handleMouseMove] leaves it: [newRight] and
    [newBottom] are the right and bottom edge it clamped, of which the frame
    stores the differences to its left and top; none of the four edges lies
    inside the image ([top > imgTop], [left > imgLeft], [newRight <
    imgRight] and [newBottom < imgBottom] are all false). *)
Definition clampedAroundImage (imgRect containerRect : DOMRect.t)
  (r : ExpandRect) (newRight newBottom : float) : Prop :=
  width r = (newRight - left r)%float
  /\ height r = (newBottom - top r)%float
  /\ (imgTop imgRect containerRect <? top r)%float = false
  /\ (imgLeft imgRect containerRect <? left r)%float = false
  /\ (newRight <? imgRight imgRect containerRect)%float = false
  /\ (newBottom <? imgBottom imgRect containerRect)%float = false.

(** A drag: pointer-down on a handle, then pointer-moves to the given client
    positions, each handled in the render the previous one produced. *)
Definition drag (env : Env) (s : State) (handle : string) (x0 y0 : float)
  (moves : list (float * float)) : State :=
  fold_left
    (fun s' m => commit s' (handleMouseMove s' env (fst m) (snd m)))
    moves
    (commit s (handleExpandMouseDown s handle x0 y0)).






(** The five actions that call the generative service. *)
Inductive Action : Type :=
| Retouch
| FilterApply (filterPrompt : string)
| AdjustmentApply (adjustmentPrompt : string)
| ExpandApply
| Upscale.

(** The handler of an action, up to its [await]. *)
Definition start (a : Action) (c : State) (env : Env)
  : list SetState * option Request :=
  match a with
  | Retouch => handleGenerate c
  | FilterApply filterPrompt => handleApplyFilter c filterPrompt
  | AdjustmentApply adjustmentPrompt => handleApplyAdjustment c adjustmentPrompt
  | ExpandApply => handleApplyExpand c env
  | Upscale => handleUpscale c
  end.

(** The busy flag an action's handler raises before its request and lowers
    when the request settles. *)
Definition busy (a : Action) (s : State) : bool :=
  match a with
  | Upscale => isUpscaling s
  | _ => isLoading s
  end.

(** The controls that submit an action. *)
Definition controls (a : Action) : list Event :=
  match a with
  | Retouch => [ GenerateClick; PromptEnter ]
  | FilterApply filterPrompt => [ FilterApplyClick filterPrompt ]
  | AdjustmentApply adjustmentPrompt => [ AdjustmentApplyClick adjustmentPrompt ]
  | ExpandApply => [ ExpandApplyClick ]
  | Upscale => [ UpscaleClick ]
  end.

(** The action a request belongs to. *)
Definition actionOf (r : Request) : Action :=
  match r with
  | generateRetouchedImage _ userPrompt _ => Retouch
  | generateFilteredImage _ filterPrompt => FilterApply filterPrompt
  | generateAdjustedImage _ adjustmentPrompt => AdjustmentApply adjustmentPrompt
  | generateExpandedImage _ _ _ _ _ => ExpandApply
  | upscaleImage _ => Upscale
  end.

(** The setter of an action's busy flag. *)
Definition setBusy (a : Action) (v : bool) : SetState :=
  match a with
  | Upscale => setIsUpscaling v
  | _ => setIsLoading v
  end.

(** The name the continuation of a request gives the resulting file. *)
Definition resultFileName (r : Request) (env : Env) : string :=
  (match r with
   | generateRetouchedImage _ _ _ => "edited-"
   | generateFilteredImage _ _ => "filtered-"
   | generateAdjustedImage _ _ => "adjusted-"
   | generateExpandedImage _ _ _ _ _ => "expanded-"
   | upscaleImage _ => "upscaled-"
   end ++ Z_to_string (now env) ++ ".png")%string.

(** The message prefix of the [catch] block of a request's handler. *)
Definition failurePrefix (r : Request) : string :=
  match r with
  | generateRetouchedImage _ _ _ => "Failed to generate the image. "
  | generateFilteredImage _ _ => "Failed to apply the filter. "
  | generateAdjustedImage _ _ => "Failed to apply the adjustment. "
  | generateExpandedImage _ _ _ _ _ => "Failed to expand the image. "
  | upscaleImage _ => "Failed to upscale image. "
  end.

(** The image and the prompt a request carries. *)
Definition requestImage (r : Request) : File :=
  match r with
  | generateRetouchedImage image _ _ | generateFilteredImage image _
  | generateAdjustedImage image _ | generateExpandedImage image _ _ _ _
  | upscaleImage image => image
  end.

Definition requestPrompt (r : Request) : option string :=
  match r with
  | generateRetouchedImage _ p _ | generateFilteredImage _ p
  | generateAdjustedImage _ p => Some p
  | _ => None
  end.

(** Events whose handler replaces the whole history (upload, generated
    image, upload-new, directly or behind the logo), and events that can
    append to it (a request settling). *)
Definition replacesHistory (ev : Event) : bool :=
  match ev with
  | FileSelect _ | ModalImageGenerated _ | UploadNewClick | LogoClick
  | ConfirmLeaveClick => true
  | _ => false
  end.

Definition settles (ev : Event) : bool :=
  match ev with
  | Settle _ _ => true
  | _ => false
  end.

Definition movesCursor (ev : Event) : bool :=
  match ev with
  | UndoClick | RedoClick | ResetClick => true
  | _ => false
  end.

(** Events that exist without the editor view: the error view's button, the
    header and its modal, window listeners, timers and settling requests. *)
Definition outsideEditor (ev : Event) : bool :=
  match ev with
  | TryAgainClick | LogoClick | ConfirmLeaveClick | CancelLeaveClick
  | ExpandTimerFires | WindowMouseMove _ _ | WindowMouseUp | Settle _ _ => true
  | _ => false
  end.

(** The characters of a MIME type as they occur in a data URL header:
    printable ASCII other than the comma and the semicolon. *)
Definition isMimeChar (ch : ascii) : bool :=
  let n := nat_of_ascii ch in
  ((33 <=? n) && (n <=? 126) && negb (n =? 44) && negb (n =? 59))%nat.

(** ** Concrete sessions *)

Definition imageA : File :=
  {| file_name := "a.png"; file_type := "image/png"; file_data := "A" |}.

Definition imageB : File :=
  {| file_name := "filtered-1.png"; file_type := "image/png"; file_data := "B" |}.

Definition imageC : File :=
  {| file_name := "adjusted-2.png"; file_type := "image/png"; file_data := "C" |}.

Definition imageD : File :=
  {| file_name := "edited-3.png"; file_type := "image/png"; file_data := "D" |}.

(** Just after an upload: one snapshot, cursor on it. *)
Definition uploaded : State := commit initialState (handleImageUpload imageA).

(** Two edits, then one undo: three snapshots, cursor on the second. *)
Definition editedTwiceUndoneOnce : State :=
  commit uploaded [ setHistory [ imageA; imageB; imageC ]; setHistoryIndex 1 ].

(** The expand tool just opened on a 1000 x 800 image displayed at
    500 x 400: the frame is the displayed image. *)
Definition expandOpened : State :=
  commit uploaded
    [ setImageDimensions (Some (Dim.mk 1000 800));
      setActiveTab Tab_expand;
      setExpandRect (Some {| top := 0; left := 0; width := 500; height := 400 |}) ].

(** The same with the frame pulled out to 550 x 400. *)
Definition expandWidened : State :=
  commit expandOpened
    [ setExpandRect (Some {| top := 0; left := 0; width := 550; height := 400 |}) ].


(** An image displayed at 500 x 400 in a container it fills. *)
Definition displayed500x400 : Env :=
  {| imgRef := Some (DOMRect.mk 120 40 500 400);
     imageContainerRef := Some (DOMRect.mk 120 40 500 400);
     now := 1700000000000 |}.

(** A 1000 x 800 image is uploaded, the expand tool is opened, the east
    handle is dragged 50 displayed pixels to the right, and the expansion is
    requested. *)
Definition expandEastBy50 : list (Env * Event) :=
  map (pair displayed500x400)
    [ FileSelect (Some [ imageA ]);
      ImageLoad 1000 800;
      TabClick Tab_expand;
      ExpandTimerFires;
      HandleMouseDown "e" 540 300;
      WindowMouseMove 590 300;
      WindowMouseUp;
      ExpandApplyClick ].

(** A 1000 x 800 image is uploaded and upscaled; the upscaled image
    (2000 x 1600) loads and is shown at 500 x 400; the expand tool is opened,
    the east handle is dragged 50 displayed pixels to the right and the
    expansion is requested. *)
Definition expandAfterUpscale : list (Env * Event) :=
  map (pair displayed500x400)
    [ FileSelect (Some [ imageA ]);
      ImageLoad 1000 800;
      UpscaleClick;
      Settle 0%nat (Resolved "data:image/png;base64,B");
      ImageLoad 2000 1600;
      TabClick Tab_expand;
      ExpandTimerFires;
      HandleMouseDown "e" 540 300;
      WindowMouseMove 590 300;
      WindowMouseUp;
      ExpandApplyClick ].


(** An image 454.3 pixels wide and 300 high whose left edge is at 343.8 in
    a container whose left edge is at 319.8. *)
Definition displayedAt24 : Env :=
  {| imgRef := Some (DOMRect.mk 100 343.8 454.3 300);
     imageContainerRef := Some (DOMRect.mk 100 319.8 502.3 300);
     now := 1700000000000 |}.

(** The expand tool is opened on that image and the west handle is dragged
    256 pixels to the left. *)
Definition dragWestBy256 : list (Env * Event) :=
  map (pair displayedAt24)
    [ FileSelect (Some [ imageA ]);
      ImageLoad 1000 660;
      TabClick Tab_expand;
      ExpandTimerFires;
      HandleMouseDown "w" 343 250;
      WindowMouseMove 87 250 ].

(** An upscale and then a retouch are submitted; the upscale fails and the
    user dismisses the error view while the retouch is still in flight. *)
Definition retouchInFlightAfterTryAgain : list (Env * Event) :=
  map (pair displayed500x400)
    [ FileSelect (Some [ imageA ]);
      PromptChange "make it blue";
      UpscaleClick;
      GenerateClick;
      Settle 0%nat (Rejected (Error "boom"));
      TryAgainClick ].

(** * Properties *)


(** ** Edit history *)

Lemma slice_prefix {A : Type} (arr : list A) (n : Z) :
  0 <= n <= Z.of_nat (length arr) ->
  slice arr 0 n = firstn (Z.to_nat n) arr.
Proof.
  intros Hn. unfold slice, relativeIndex.
  rewrite Z.ltb_irrefl.
  destruct (n <? 0) eqn:Hneg; [apply Z.ltb_lt in Hneg; lia|].
  rewrite Z.min_l by lia. rewrite Z.min_l by lia.
  rewrite Z.sub_0_r. reflexivity.
Qed.


(** What [addImageToHistory] leaves behind, whatever state the updates land
    on: the history and the cursor are rebuilt from the closure [c] alone. *)
Lemma addImageToHistory_commit (c s : State) (f : File) :
  let s' := commit s (addImageToHistory c f) in
  history s' = slice (history c) 0 (historyIndex c + 1) ++ [f]
  /\ historyIndex s' = Z.of_nat (length (history s')) - 1
  /\ crop s' = None /\ completedCrop s' = None /\ expandRect s' = None.
Proof. cbn. repeat split. Qed.


(** C4. Undo at cursor 0 and redo at the last index change nothing; from any
    other cursor, undo followed by redo is back at the same cursor, on the
    same snapshot (indeed in the same state). *)
Theorem undo_redo_boundaries (s : State) :
  (historyIndex s = 0 -> commit s (handleUndo s) = s)
  /\ (historyIndex s = Z.of_nat (length (history s)) - 1 ->
      commit s (handleRedo s) = s)
  /\ (0 < historyIndex s <= Z.of_nat (length (history s)) - 1 ->
      let u := commit s (handleUndo s) in
      let r := commit u (handleRedo u) in
      historyIndex u = historyIndex s - 1
      /\ historyIndex r = historyIndex s
      /\ history r = history s
      /\ currentImage r = currentImage s
      /\ r = s).
Proof.
  split; [|split].
  - intros H0. unfold handleUndo, canUndo. rewrite H0. reflexivity.
  - intros Hlast. unfold handleRedo, canRedo. rewrite Hlast, Z.ltb_irrefl.
    reflexivity.
  - intros Hc u r.
    assert (Hu : u = apply_set s (setHistoryIndex (historyIndex s - 1))).
    { subst u. unfold handleUndo, canUndo.
      destruct (historyIndex s >? 0) eqn:E; [reflexivity|].
      rewrite Z.gtb_ltb in E. apply Z.ltb_ge in E. lia. }
    assert (Hr : r = s).
    { subst r. rewrite Hu. unfold handleRedo, canRedo. cbn.
      destruct (historyIndex s - 1 <? _) eqn:E.
      - cbn. destruct s; cbn. f_equal. lia.
      - apply Z.ltb_ge in E. lia. }
    rewrite Hr. repeat split. rewrite Hu. reflexivity.
Qed.

Lemma Tab_eqb_refl (t : Tab) : Tab_eqb t t = true.
Proof. destruct t; reflexivity. Qed.

(** The [activeTab] effect does not run when the tab did not change. *)
Lemma activeTabEffect_same_tab (t : Tab) (sys : Sys) :
  activeTab (ui sys) = t -> activeTabEffect t sys = sys.
Proof.
  intros H. unfold activeTabEffect. rewrite H, Tab_eqb_refl. reflexivity.
Qed.

Lemma history_invariant_initial : history_invariant initialState.
Proof. unfold history_invariant. cbn. lia. Qed.

(** An append rebuilds history and cursor together, so its result satisfies
    the invariant even when the closure [c] is older than the state [s] the
    updates are committed to. *)
Lemma addImageToHistory_invariant (c s : State) (f : File) :
  history_invariant (commit s (addImageToHistory c f)).
Proof.
  destruct (addImageToHistory_commit c s f) as (Hh & Hi & _).
  unfold history_invariant. rewrite Hi, Hh, length_app. simpl length. lia.
Qed.

(** The invariant reads the history and the cursor only. *)
Lemma history_invariant_frame (s s' : State) :
  history s' = history s ->
  historyIndex s' = historyIndex s ->
  history_invariant s -> history_invariant s'.
Proof. unfold history_invariant. intros -> ->. exact (fun H => H). Qed.

Lemma handleImageUpload_invariant (s : State) (file : File) :
  history_invariant (commit s (handleImageUpload file)).
Proof. unfold history_invariant. cbn. lia. Qed.

Lemma handleUploadNew_invariant (s : State) :
  history_invariant (commit s handleUploadNew).
Proof. unfold history_invariant. cbn. lia. Qed.

Lemma handleUndo_invariant (s : State) :
  history_invariant s -> history_invariant (commit s (handleUndo s)).
Proof.
  intros Hinv. unfold handleUndo, canUndo.
  destruct (historyIndex s >? 0) eqn:E; [|exact Hinv].
  rewrite Z.gtb_ltb in E. apply Z.ltb_lt in E.
  unfold history_invariant in *. cbn. lia.
Qed.

Lemma handleRedo_invariant (s : State) :
  history_invariant s -> history_invariant (commit s (handleRedo s)).
Proof.
  intros Hinv. unfold handleRedo, canRedo.
  destruct (historyIndex s <? _) eqn:E; [|exact Hinv].
  apply Z.ltb_lt in E.
  unfold history_invariant in *. cbn. lia.
Qed.

Lemma handleReset_invariant (s : State) :
  history_invariant s -> history_invariant (commit s (handleReset s)).
Proof.
  intros Hinv. unfold handleReset.
  destruct (Z.of_nat (length (history s)) >? 0) eqn:E; [|exact Hinv].
  rewrite Z.gtb_ltb in E. apply Z.ltb_lt in E.
  unfold history_invariant in *. cbn. lia.
Qed.

(** C5. Every operation of the history store (replace-all on upload,
    append, undo, redo, reset, upload-new) preserves the invariant: the
    cursor lies in [0, length) when the history is non-empty, and it is -1
    exactly when the history is empty. *)
Theorem history_ops_preserve_invariant (op : HistoryOp) (s : State) :
  history_invariant s ->
  history_invariant (commit s (history_op op s)).
Proof.
  intros Hinv. destruct op; cbn [history_op].
  - apply handleImageUpload_invariant.
  - apply addImageToHistory_invariant.
  - apply handleUndo_invariant, Hinv.
  - apply handleRedo_invariant, Hinv.
  - apply handleReset_invariant, Hinv.
  - apply handleUploadNew_invariant.
Qed.

(** What a request's continuation commits satisfies the invariant on
    whatever state it lands: on success it is an append, on failure the
    history is not written. *)
Lemma resume_invariant (r : Request) (c s : State) (env : Env) (o : Outcome) :
  history_invariant s ->
  history_invariant (commit s (resume r c env o)).
Proof.
  intros Hinv.
  assert (Happend : forall f rest,
             (forall s0, history (commit s0 rest) = history s0
                         /\ historyIndex (commit s0 rest) = historyIndex s0) ->
             history_invariant (commit s (addImageToHistory c f ++ rest))).
  { intros f rest Hrest. unfold commit. rewrite fold_left_app.
    destruct (Hrest (fold_left apply_set (addImageToHistory c f) s)) as [H1 H2].
    eapply history_invariant_frame; [exact H1 | exact H2 |].
    apply addImageToHistory_invariant. }
  destruct r; cbn [resume];
    unfold handleGenerate_resume, handleApplyFilter_resume,
      handleApplyAdjustment_resume, handleApplyExpand_resume,
      handleUpscale_resume, try_catch_finally;
    (destruct o as [url|err]; cbn [await bind ret throw];
     [ match goal with
       | |- context [dataURLtoFile ?u ?n] => destruct (dataURLtoFile u n) as [e|f]
       end;
       cbn [bind ret];
       [ eapply history_invariant_frame; [| |exact Hinv]; reflexivity
       | rewrite <- ?app_assoc; apply Happend; intros s0; split; reflexivity ]
     | eapply history_invariant_frame; [| |exact Hinv]; reflexivity ]).
Qed.

(** C9. Reset on an empty history changes nothing at all; reset with the
    cursor already at 0 leaves sequence and cursor as they are; reset on a
    non-empty history puts the cursor at 0 and keeps the sequence; and a
    second reset changes nothing. *)
Theorem reset_idempotent (s : State) :
  let s' := commit s (handleReset s) in
  (history s = [] -> s' = s)
  /\ (historyIndex s = 0 ->
      history s' = history s /\ historyIndex s' = historyIndex s)
  /\ (history s <> [] -> historyIndex s' = 0 /\ history s' = history s)
  /\ history s' = history s
  /\ commit s' (handleReset s') = s'.
Proof.
  intros s'. subst s'. unfold handleReset.
  destruct (history s) as [|f fs] eqn:Hh.
  - cbn. rewrite Hh. cbn. repeat split; try congruence.
  - assert (Hpos : (Z.of_nat (length (f :: fs)) >? 0) = true).
    { rewrite Z.gtb_ltb. apply Z.ltb_lt. simpl length. lia. }
    rewrite Hpos. cbn [commit fold_left apply_set history historyIndex].
    rewrite Hh, Hpos.
    repeat split; try congruence.
Qed.

(** C10. Undo and redo write the cursor and nothing else: the snapshot
    sequence, the crop selection (pending and completed) and the expand
    rectangle are as before, also once the effects of the re-render have
    run; an append, by contrast, clears the crop selection and the expand
    rectangle. *)
Theorem undo_redo_only_move_cursor (s : State) :
  let u := commit s (handleUndo s) in
  let r := commit s (handleRedo s) in
  u = apply_set s (setHistoryIndex (historyIndex u))
  /\ r = apply_set s (setHistoryIndex (historyIndex r))
  /\ history u = history s /\ crop u = crop s
  /\ completedCrop u = completedCrop s /\ expandRect u = expandRect s
  /\ history r = history s /\ crop r = crop s
  /\ completedCrop r = completedCrop s /\ expandRect r = expandRect s
  /\ (forall env sys, ui sys = s ->
        ui (dispatch sys (env, UndoClick)) = u \/ dispatch sys (env, UndoClick) = sys)
  /\ (forall env sys, ui sys = s ->
        ui (dispatch sys (env, RedoClick)) = r \/ dispatch sys (env, RedoClick) = sys)
  /\ (forall f, let a := commit s (addImageToHistory s f) in
        crop a = None /\ completedCrop a = None /\ expandRect a = None).
Proof.
  intros u r.
  assert (Hu : u = apply_set s (setHistoryIndex (historyIndex u))).
  { subst u. unfold handleUndo. destruct (canUndo s); cbn; [reflexivity|].
    destruct s; reflexivity. }
  assert (Hr : r = apply_set s (setHistoryIndex (historyIndex r))).
  { subst r. unfold handleRedo. destruct (canRedo s); cbn; [reflexivity|].
    destruct s; reflexivity. }
  split; [exact Hu|]. split; [exact Hr|].
  repeat match goal with |- _ /\ _ => split end;
    try (rewrite Hu; reflexivity); try (rewrite Hr; reflexivity).
  - intros env sys Hs. unfold dispatch.
    destruct (enabled env sys UndoClick); [left|right; reflexivity].
    cbn [handler]. rewrite Hs. fold u.
    rewrite activeTabEffect_same_tab; [reflexivity|].
    cbn [ui]. rewrite Hu. reflexivity.
  - intros env sys Hs. unfold dispatch.
    destruct (enabled env sys RedoClick); [left|right; reflexivity].
    cbn [handler]. rewrite Hs. fold r.
    rewrite activeTabEffect_same_tab; [reflexivity|].
    cbn [ui]. rewrite Hr. reflexivity.
  - intros f. cbn. repeat split.
Qed.

(** ** Expand frame *)

(** Order facts about doubles, from the specification of the primitive
    comparisons. *)
Lemma float_ltb_irrefl (x : float) : (x <? x)%float = false.
Proof.
  rewrite FloatAxioms.ltb_spec. unfold SFltb, SFcompare.
  destruct (Prim2SF x) as [s|s| |s m e]; try reflexivity.
  - destruct s; reflexivity.
  - destruct s; rewrite Z.compare_refl, Pos.compare_cont_refl; reflexivity.
Qed.

Lemma SFcompare_antisym (x y : spec_float) (c : comparison) :
  SFcompare x y = Some c -> SFcompare y x = Some (CompOpp c).
Proof.
  destruct x as [sx|sx| |sx mx ex], y as [sy|sy| |sy my ey]; cbn;
    try discriminate;
    try (intros H; injection H as <-);
    try (destruct sx; reflexivity);
    try (destruct sy; reflexivity);
    try (destruct sx, sy; reflexivity).
  assert (Hm : Pos.compare_cont Eq my mx = CompOpp (Pos.compare_cont Eq mx my))
    by (symmetry; apply (Pos.compare_cont_antisym mx my Eq)).
  destruct sx, sy; cbn; try reflexivity;
    rewrite (Z.compare_antisym ex ey);
    destruct (ex ?= ey); cbn; try reflexivity;
    rewrite Hm; destruct (Pos.compare_cont Eq mx my); reflexivity.
Qed.

(** Between numbers, "not less than" is "greater than or equal". *)
Lemma float_ltb_false_leb (x y : float) :
  isNumber x -> isNumber y ->
  (x <? y)%float = false -> (y <=? x)%float = true.
Proof.
  unfold isNumber, is_nan. rewrite !FloatAxioms.eqb_spec, FloatAxioms.ltb_spec, FloatAxioms.leb_spec.
  unfold SFeqb, SFltb, SFleb. intros Hx Hy.
  destruct (SFcompare (Prim2SF x) (Prim2SF y)) as [c|] eqn:E.
  - rewrite (SFcompare_antisym _ _ _ E). destruct c; cbn; congruence.
  - exfalso.
    destruct (Prim2SF x) as [sx|sx| |sx mx ex], (Prim2SF y) as [sy|sy| |sy my ey];
      cbn in *; discriminate.
Qed.

(** The two clamps of [handleMouseMove]. *)
Lemma clamp_from_above (bound candidate : float) :
  (bound <? (if (bound <? candidate)%float then bound else candidate))%float
  = false.
Proof.
  destruct (bound <? candidate)%float eqn:E; [apply float_ltb_irrefl | exact E].
Qed.

Lemma clamp_from_below (bound candidate : float) :
  ((if (candidate <? bound)%float then bound else candidate) <? bound)%float
  = false.
Proof.
  destruct (candidate <? bound)%float eqn:E; [apply float_ltb_irrefl | exact E].
Qed.

(** One pointer-move: whatever the handle, the pointer position and the
    rectangle the drag started from, the rectangle written is clamped around
    the image. *)
Lemma handleMouseMove_clamps (c s : State) (env : Env) (d : DragState)
  (imgRect containerRect : DOMRect.t) (clientX clientY : float) :
  dragState c = Some d ->
  imgRef env = Some imgRect ->
  imageContainerRef env = Some containerRect ->
  exists r newRight newBottom,
    expandRect (commit s (handleMouseMove c env clientX clientY)) = Some r
    /\ clampedAroundImage imgRect containerRect r newRight newBottom.
Proof.
  intros Hd Hi Hc. unfold handleMouseMove. rewrite Hd, Hi, Hc.
  eexists. eexists. eexists. split; [reflexivity|].
  unfold clampedAroundImage. cbn [top left width height].
  split; [reflexivity|]. split; [reflexivity|].
  split; [apply clamp_from_above|]. split; [apply clamp_from_above|].
  split; apply clamp_from_below.
Qed.

Lemma handleMouseMove_keeps_drag (c s : State) (env : Env)
  (clientX clientY : float) :
  dragState (commit s (handleMouseMove c env clientX clientY)) = dragState s.
Proof.
  unfold handleMouseMove.
  destruct (dragState c), (imgRef env), (imageContainerRef env); reflexivity.
Qed.

Lemma drag_keeps_dragState (env : Env) (s : State) (r0 : ExpandRect)
  (handle : string) (x0 y0 : float) (moves : list (float * float)) :
  expandRect s = Some r0 ->
  exists d, dragState (drag env s handle x0 y0 moves) = Some d.
Proof.
  intros Hr0. unfold drag.
  set (s1 := commit s (handleExpandMouseDown s handle x0 y0)).
  assert (Hd1 : exists d, dragState s1 = Some d).
  { subst s1. unfold handleExpandMouseDown. rewrite Hr0. cbn. eauto. }
  clearbody s1. revert s1 Hd1.
  induction moves as [|[x y] moves IH]; intros s1 Hd1; [exact Hd1|].
  cbn [fold_left fst snd]. apply IH.
  rewrite handleMouseMove_keeps_drag. exact Hd1.
Qed.

(** C3 (amended). During an expand drag, after every pointer-move (any
    handle, any sequence of pointer positions) the expand rectangle is
    clamped around the displayed image: [top > imgTop] and [left > imgLeft]
    are false, and its width and height are the double differences
    [newRight - left] and [newBottom - top] of a right and bottom edge for
    which [newRight < imgLeft + imgWidth] and [newBottom < imgTop +
    imgHeight] are false.  Between numbers this is top <= imgTop, left <=
    imgLeft, newRight >= imgLeft + imgWidth and newBottom >= imgTop +
    imgHeight. *)
Theorem expand_drag_clamps_around_image (env : Env)
  (imgRect containerRect : DOMRect.t) (s : State) (r0 : ExpandRect)
  (handle : string) (x0 y0 : float) (moves : list (float * float))
  (x y : float) :
  imgRef env = Some imgRect ->
  imageContainerRef env = Some containerRect ->
  expandRect s = Some r0 ->
  exists r newRight newBottom,
    expandRect (drag env s handle x0 y0 (moves ++ [(x, y)])) = Some r
    /\ clampedAroundImage imgRect containerRect r newRight newBottom
    /\ (isNumber (top r) -> isNumber (imgTop imgRect containerRect) ->
        (top r <=? imgTop imgRect containerRect)%float = true)
    /\ (isNumber (left r) -> isNumber (imgLeft imgRect containerRect) ->
        (left r <=? imgLeft imgRect containerRect)%float = true)
    /\ (isNumber newRight -> isNumber (imgRight imgRect containerRect) ->
        (imgLeft imgRect containerRect + DOMRect.width imgRect <=? newRight)%float
        = true)
    /\ (isNumber newBottom -> isNumber (imgBottom imgRect containerRect) ->
        (imgTop imgRect containerRect + DOMRect.height imgRect <=? newBottom)%float
        = true).
Proof.
  intros Hi Hc Hr0.
  destruct (drag_keeps_dragState env s r0 handle x0 y0 moves Hr0) as [d Hd].
  unfold drag in *. rewrite fold_left_app. cbn [fold_left fst snd].
  match goal with
  | |- context [commit ?st (handleMouseMove ?st env x y)] =>
      destruct (handleMouseMove_clamps st st env d imgRect containerRect x y
                  Hd Hi Hc) as (r & nr & nb & Hr & Hclamp)
  end.
  exists r, nr, nb. split; [exact Hr|]. split; [exact Hclamp|].
  destruct Hclamp as (_ & _ & Ht & Hl & Hrt & Hb).
  split; [|split; [|split]].
  - intros N1 N2. apply float_ltb_false_leb; assumption.
  - intros N1 N2. apply float_ltb_false_leb; assumption.
  - intros N1 N2. apply (float_ltb_false_leb nr _ N1 N2 Hrt).
  - intros N1 N2. apply (float_ltb_false_leb nb _ N1 N2 Hb).
Qed.

(** ** Displayed and natural pixels *)

(** [ExpandPanel] shows the very dimensions [handleApplyExpand] requests. *)
Lemma newDimensions_agrees (dims : Dim.t) (r : ExpandRect) (displayed : DOMRect.t) :
  newDimensions (Some dims) (Some r) (Some displayed)
  = Some (targetWidth r (scale dims displayed),
          targetHeight r (scale dims displayed)).
Proof. reflexivity. Qed.

(** With its inputs present, [handleApplyExpand] takes
    [Math.round(expandRect.width * (imageDimensions.width / displayedWidth))]
    and the height scaled by the same factor as target, all in doubles, and
    makes no request exactly when [targetWidth <= imageDimensions.width &&
    targetHeight <= imageDimensions.height]; otherwise it requests that
    target. *)
Lemma handleApplyExpand_validation (c : State) (env : Env) (image : File)
  (r : ExpandRect) (displayed container : DOMRect.t) (dims : Dim.t) :
  currentImage c = Some image ->
  expandRect c = Some r ->
  imgRef env = Some displayed ->
  imageDimensions c = Some dims ->
  imageContainerRef env = Some container ->
  let tw := Math_round (width r * (Dim.width dims / DOMRect.width displayed)) in
  let th := Math_round (height r * (Dim.width dims / DOMRect.width displayed)) in
  (snd (handleApplyExpand c env) = None
   <-> (tw <=? Dim.width dims)%float = true
       /\ (th <=? Dim.height dims)%float = true)
  /\ (snd (handleApplyExpand c env) = None ->
      fst (handleApplyExpand c env)
      = [ setError (Some
            "Please expand the frame outwards to generate a larger image.") ])
  /\ (snd (handleApplyExpand c env) <> None ->
      exists ox oy,
        handleApplyExpand c env
        = ([ setIsLoading true; setError None ],
           Some (generateExpandedImage image tw th ox oy))).
Proof.
  intros Hc Hr Hi Hd Hk tw th.
  unfold handleApplyExpand. rewrite Hc, Hr, Hi, Hd, Hk.
  cbv zeta. unfold targetWidth, targetHeight, scale. fold tw th.
  destruct (tw <=? Dim.width dims)%float eqn:Ew;
    destruct (th <=? Dim.height dims)%float eqn:Eh;
    cbn [andb fst snd].
  - repeat split; auto. intros H. congruence.
  - split; [split|split].
    + intros H. discriminate.
    + intros [_ H]. discriminate.
    + intros H. discriminate.
    + intros _. eauto.
  - split; [split|split].
    + intros H. discriminate.
    + intros [H _]. discriminate.
    + intros H. discriminate.
    + intros _. eauto.
  - split; [split|split].
    + intros H. discriminate.
    + intros [H _]. discriminate.
    + intros H. discriminate.
    + intros _. eauto.
Qed.




(** ** Actions and the generative service *)

(** The [activeTab] effect touches the expand rectangle and its timer only. *)
Lemma activeTabEffect_frame (t : Tab) (sys : Sys) :
  inflight (activeTabEffect t sys) = inflight sys
  /\ history (ui (activeTabEffect t sys)) = history (ui sys)
  /\ historyIndex (ui (activeTabEffect t sys)) = historyIndex (ui sys)
  /\ isLoading (ui (activeTabEffect t sys)) = isLoading (ui sys)
  /\ isUpscaling (ui (activeTabEffect t sys)) = isUpscaling (ui sys).
Proof.
  unfold activeTabEffect.
  destruct (Tab_eqb t (activeTab (ui sys)));
    [|destruct (Tab_eqb (activeTab (ui sys)) Tab_expand)];
    repeat split.
Qed.

(** Before its [await] no handler writes the history or the cursor. *)
Lemma start_keeps_history (a : Action) (s : State) (env : Env) :
  history (commit s (fst (start a s env))) = history s
  /\ historyIndex (commit s (fst (start a s env))) = historyIndex s.
Proof.
  destruct a; unfold start, handleGenerate, handleApplyFilter,
    handleApplyAdjustment, handleApplyExpand, handleUpscale;
    repeat match goal with
    | |- context [match ?x with _ => _ end] => destruct x
    end;
    split; reflexivity.
Qed.

(** The [catch] and [finally] blocks write [error] and the busy flag only. *)
Lemma resume_rejected_keeps_history (r : Request) (c s : State) (env : Env)
  (err : Thrown) :
  history (commit s (resume r c env (Rejected err))) = history s
  /\ historyIndex (commit s (resume r c env (Rejected err))) = historyIndex s.
Proof. destruct r; split; reflexivity. Qed.

(** C2. For each action that calls the generative service (retouch, filter,
    adjustment, expand, upscale): starting it does not touch the history,
    and when its call rejects, the state the rejection lands on keeps its
    history sequence and cursor, so a failed action appends nothing and
    changes no entry. *)
Theorem rejected_action_leaves_history :
  (forall (a : Action) (s : State) (env : Env),
      let s1 := commit s (fst (start a s env)) in
      history s1 = history s /\ historyIndex s1 = historyIndex s)
  /\ (forall (r : Request) (c s : State) (env : Env) (err : Thrown),
      let s' := commit s (resume r c env (Rejected err)) in
      history s' = history s /\ historyIndex s' = historyIndex s)
  /\ (forall (a : Action) (s : State) (env env' : Env) (err : Thrown),
      match snd (start a s env) with
      | Some r =>
          let s1 := commit s (fst (start a s env)) in
          let s2 := commit s1 (resume r s env' (Rejected err)) in
          history s2 = history s /\ historyIndex s2 = historyIndex s
      | None => True
      end)
  /\ (forall (sys : Sys) (env : Env) (i : nat) (err : Thrown),
      let sys' := dispatch sys (env, Settle i (Rejected err)) in
      history (ui sys') = history (ui sys)
      /\ historyIndex (ui sys') = historyIndex (ui sys)).
Proof.
  split; [|split; [|split]].
  - intros a s env. apply start_keeps_history.
  - intros r c s env err. apply resume_rejected_keeps_history.
  - intros a s env env' err.
    destruct (snd (start a s env)) as [r|] eqn:E; [|exact I].
    cbv zeta.
    destruct (resume_rejected_keeps_history r s
                (commit s (fst (start a s env))) env' err) as [H1 H2].
    destruct (start_keeps_history a s env) as [H3 H4].
    split; congruence.
  - intros sys env i err. cbv zeta. unfold dispatch.
    destruct (enabled env sys (Settle i (Rejected err))); [|split; reflexivity].
    cbn [handler].
    destruct (nth_error (inflight sys) i) as [p|].
    + match goal with
      | |- context [activeTabEffect ?t ?x] =>
          destruct (activeTabEffect_frame t x) as (_ & Hh & Hi & _)
      end.
      rewrite Hh, Hi. cbn [ui].
      apply resume_rejected_keeps_history.
    + match goal with
      | |- context [activeTabEffect ?t ?x] =>
          destruct (activeTabEffect_frame t x) as (_ & Hh & Hi & _)
      end.
      rewrite Hh, Hi. split; reflexivity.
Qed.

(** A disabled or absent control does nothing. *)
Lemma dispatch_disabled (sys : Sys) (env : Env) (ev : Event) :
  enabled env sys ev = false -> dispatch sys (env, ev) = sys.
Proof. intros H. unfold dispatch. rewrite H. reflexivity. Qed.

(** The submit control of an action is disabled while its busy flag is up. *)
Lemma busy_disables_controls (a : Action) (env : Env) (sys : Sys) (ev : Event) :
  In ev (controls a) ->
  busy a (ui sys) = true ->
  enabled env sys ev = false.
Proof.
  intros Hev Hbusy.
  destruct a; cbn [controls In] in Hev; cbn [busy] in Hbusy;
    repeat match goal with
    | H : _ \/ _ |- _ => destruct H
    | H : False |- _ => destruct H
    end;
    subst ev; cbn [enabled]; rewrite Hbusy; cbn [orb negb];
    rewrite ?andb_false_r; reflexivity.
Qed.

(** An event that adds a request to the in-flight list was enabled and its
    handler started that request. *)
Lemma dispatch_grows (sys : Sys) (env : Env) (ev : Event) :
  (length (inflight (dispatch sys (env, ev))) > length (inflight sys))%nat ->
  exists r,
    snd (handler env sys ev) = Some r
    /\ ui (dispatch sys (env, ev))
       = ui (activeTabEffect (activeTab (ui sys))
               {| ui := commit (ui sys) (fst (handler env sys ev));
                  inflight := []; expandTimer := false |}).
Proof.
  unfold dispatch. destruct (enabled env sys ev); [|lia].
  destruct (handler env sys ev) as [updates [r|]] eqn:Eh.
  - intros _. exists r. split; [reflexivity|].
    unfold activeTabEffect. cbn [ui fst].
    destruct (Tab_eqb _ _); [reflexivity|].
    destruct (Tab_eqb _ _); reflexivity.
  - match goal with
    | |- context [activeTabEffect ?t ?x] =>
        destruct (activeTabEffect_frame t x) as (Hin & _)
    end.
    rewrite Hin. cbn [inflight].
    destruct ev; try lia.
    unfold remove_nth. rewrite length_app, length_firstn, length_skipn. lia.
Qed.

(** C8 (amended). While the busy flag of an action is up (isLoading for
    retouch, filter, adjustment and expand, isUpscaling for upscale), a
    submission of that action through its control is ignored: no request is
    made and the state, history included, stays as it is.  A submission that
    does start a request leaves the flag up. *)
Theorem busy_gate_ignores_resubmission (a : Action) (env : Env) (sys : Sys)
  (ev : Event) :
  In ev (controls a) ->
  (busy a (ui sys) = true -> dispatch sys (env, ev) = sys)
  /\ ((length (inflight (dispatch sys (env, ev))) > length (inflight sys))%nat ->
      busy a (ui (dispatch sys (env, ev))) = true).
Proof.
  intros Hev. split.
  - intros Hbusy. apply dispatch_disabled.
    eapply busy_disables_controls; eassumption.
  - intros Hgrow. destruct (dispatch_grows sys env ev Hgrow) as (r & Hr & Hui).
    assert (Hflag : forall s', busy a (ui (activeTabEffect (activeTab (ui sys)) s'))
                               = busy a (ui s')).
    { intros s'. destruct (activeTabEffect_frame (activeTab (ui sys)) s')
        as (_ & _ & _ & Hl & Hu).
      destruct a; cbn [busy]; assumption. }
    rewrite Hui, Hflag. cbn [ui].
    destruct a; cbn [controls In] in Hev;
      repeat match goal with
      | H : _ \/ _ |- _ => destruct H
      | H : False |- _ => destruct H
      end;
      subst ev; cbn [handler] in Hr |- *;
      unfold handleGenerate, handleApplyFilter, handleApplyAdjustment,
        handleApplyExpand, handleUpscale in Hr |- *;
      repeat match goal with
      | |- context [match ?x with _ => _ end] => destruct x
      end;
      try discriminate; reflexivity.
Qed.

(** ** The invariant in every reachable state *)

Ltac history_untouched Hinv :=
  repeat match goal with
  | |- context [match ?x with _ => _ end] => destruct x
  end;
  cbn [fst];
  (eapply history_invariant_frame; [| |exact Hinv]; reflexivity).

Lemma handler_invariant (env : Env) (sys : Sys) (ev : Event) :
  history_invariant (ui sys) ->
  history_invariant (commit (ui sys) (fst (handler env sys ev))).
Proof.
  intros Hinv. destruct ev; cbn [handler fst].
  - destruct files as [[|file files]|]; cbn [handleFileSelect];
      [exact Hinv | apply handleImageUpload_invariant | exact Hinv].
  - history_untouched Hinv.
  - history_untouched Hinv.
  - unfold handleGeneratedImage, commit. rewrite fold_left_app.
    eapply history_invariant_frame;
      [| |apply (handleImageUpload_invariant (ui sys) file)]; reflexivity.
  - history_untouched Hinv.
  - unfold handleGenerate. history_untouched Hinv.
  - unfold handleGenerate. history_untouched Hinv.
  - history_untouched Hinv.
  - history_untouched Hinv.
  - unfold handleApplyFilter. history_untouched Hinv.
  - unfold handleApplyAdjustment. history_untouched Hinv.
  - unfold handleApplyExpand. history_untouched Hinv.
  - unfold handleUpscale. history_untouched Hinv.
  - apply handleUndo_invariant, Hinv.
  - apply handleRedo_invariant, Hinv.
  - apply handleReset_invariant, Hinv.
  - apply handleUploadNew_invariant.
  - history_untouched Hinv.
  - unfold handleLogoClick. destruct (historyIndex (ui sys) >? 0).
    + history_untouched Hinv.
    + apply handleUploadNew_invariant.
  - unfold handleConfirmLeave, commit. rewrite fold_left_app.
    eapply history_invariant_frame;
      [| |apply (handleUploadNew_invariant (ui sys))]; reflexivity.
  - history_untouched Hinv.
  - history_untouched Hinv.
  - history_untouched Hinv.
  - history_untouched Hinv.
  - history_untouched Hinv.
  - unfold handleImageLoad. history_untouched Hinv.
  - unfold initExpandRect. history_untouched Hinv.
  - unfold handleExpandMouseDown. history_untouched Hinv.
  - unfold handleMouseMove. history_untouched Hinv.
  - history_untouched Hinv.
  - destruct (nth_error (inflight sys) i) as [p|]; cbn [fst].
    + apply resume_invariant, Hinv.
    + exact Hinv.
Qed.

Lemma dispatch_invariant (sys : Sys) (step : Env * Event) :
  history_invariant (ui sys) -> history_invariant (ui (dispatch sys step)).
Proof.
  intros Hinv. destruct step as [env ev]. unfold dispatch.
  destruct (enabled env sys ev); [|exact Hinv].
  pose proof (handler_invariant env sys ev Hinv) as H.
  destruct (handler env sys ev) as [updates started]. cbn [fst] in H.
  match goal with
  | |- context [activeTabEffect ?t ?x] =>
      destruct (activeTabEffect_frame t x) as (_ & Hh & Hi & _)
  end.
  eapply history_invariant_frame; [exact Hh | exact Hi | exact H].
Qed.

(** Whatever the user does and however the requests settle, the cursor
    stays inside the history (or at -1 on the empty one). *)
Lemma history_invariant_reachable (steps : list (Env * Event)) :
  history_invariant (ui (run initialSys steps)).
Proof.
  unfold run.
  assert (H : forall sys, history_invariant (ui sys) ->
                          history_invariant (ui (fold_left dispatch steps sys))).
  { induction steps as [|step steps IH]; intros sys Hinv; [exact Hinv|].
    cbn [fold_left]. apply IH, dispatch_invariant, Hinv. }
  apply H. exact history_invariant_initial.
Qed.

(** * Further properties of the component *)

(** ** More on the edit history *)

(** X1. After an append nothing can be redone, and under the history
    invariant of the closure something can be undone exactly when the
    closure's history was not empty. *)
Theorem append_leaves_nothing_to_redo (c s : State) (f : File) :
  history_invariant c ->
  let s' := commit s (addImageToHistory c f) in
  canRedo s' = false
  /\ (canUndo s' = true <-> history c <> []).
Proof.
  intros Hinv s'.
  destruct (addImageToHistory_commit c s f) as (Hh & Hi & _). fold s' in Hh, Hi.
  split.
  - unfold canRedo. rewrite Hi. apply Z.ltb_irrefl.
  - unfold canUndo. rewrite Hi, Hh, length_app. simpl length.
    rewrite Z.gtb_ltb, Z.ltb_lt.
    destruct Hinv as [Hrange Hempty].
    destruct (history c) as [|x l] eqn:E.
    + assert (historyIndex c = -1) by (apply Hempty; reflexivity).
      replace (historyIndex c + 1) with 0 by lia.
      cbn. split; [lia|congruence].
    + simpl length in *.
      rewrite slice_prefix by (simpl length; lia).
      rewrite firstn_length_le by (simpl length; lia).
      split; [congruence|lia].
Qed.

(** X2. Redo followed by undo is the identity wherever redo is possible on
    a cursor that is not negative. *)
Theorem redo_then_undo (s : State) :
  canRedo s = true ->
  0 <= historyIndex s ->
  let r := commit s (handleRedo s) in
  historyIndex r = historyIndex s + 1
  /\ commit r (handleUndo r) = s.
Proof.
  intros Hredo Hc r.
  assert (Hr : r = apply_set s (setHistoryIndex (historyIndex s + 1))).
  { subst r. unfold handleRedo. rewrite Hredo. reflexivity. }
  split; [rewrite Hr; reflexivity|].
  rewrite Hr. unfold handleUndo, canUndo. cbn [historyIndex apply_set].
  destruct (historyIndex s + 1 >? 0) eqn:E.
  - cbn. destruct s; cbn. f_equal. lia.
  - rewrite Z.gtb_ltb in E. apply Z.ltb_ge in E. lia.
Qed.

Lemma handleUndo_step (s : State) :
  0 <= historyIndex s ->
  history (commit s (handleUndo s)) = history s
  /\ historyIndex (commit s (handleUndo s)) = Z.max (historyIndex s - 1) 0.
Proof.
  intros Hc. unfold handleUndo, canUndo.
  destruct (historyIndex s >? 0) eqn:E.
  - rewrite Z.gtb_ltb in E. apply Z.ltb_lt in E. cbn. split; [reflexivity|lia].
  - rewrite Z.gtb_ltb in E. apply Z.ltb_ge in E. cbn. split; [reflexivity|lia].
Qed.

Lemma handleRedo_step (s : State) :
  historyIndex s <= Z.of_nat (length (history s)) - 1 ->
  history (commit s (handleRedo s)) = history s
  /\ historyIndex (commit s (handleRedo s))
     = Z.min (historyIndex s + 1) (Z.of_nat (length (history s)) - 1).
Proof.
  intros Hc. unfold handleRedo, canRedo.
  destruct (historyIndex s <? _) eqn:E.
  - apply Z.ltb_lt in E. cbn. split; [reflexivity|lia].
  - apply Z.ltb_ge in E. cbn. split; [reflexivity|lia].
Qed.

(** X3. [n] undos from cursor [c >= 0] land on max(c - n, 0), and [n] redos
    from a cursor [c <= N - 1] land on min(c + n, N - 1); neither touches the
    sequence. *)
Theorem repeated_undo_redo (n : nat) (s : State) :
  (0 <= historyIndex s ->
   history (clicks handleUndo n s) = history s
   /\ historyIndex (clicks handleUndo n s)
      = Z.max (historyIndex s - Z.of_nat n) 0)
  /\ (historyIndex s <= Z.of_nat (length (history s)) - 1 ->
      history (clicks handleRedo n s) = history s
      /\ historyIndex (clicks handleRedo n s)
         = Z.min (historyIndex s + Z.of_nat n)
                 (Z.of_nat (length (history s)) - 1)).
Proof.
  split.
  - revert s. induction n as [|n IH]; intros s Hc.
    + cbn [clicks]. split; [reflexivity|lia].
    + cbn [clicks]. destruct (handleUndo_step s Hc) as [Hh Hi].
      destruct (IH (commit s (handleUndo s))) as [Hh' Hi']; [lia|].
      rewrite Hh', Hi', Hh, Hi. split; [reflexivity|lia].
  - revert s. induction n as [|n IH]; intros s Hc.
    + cbn [clicks]. split; [reflexivity|lia].
    + cbn [clicks]. destruct (handleRedo_step s Hc) as [Hh Hi].
      destruct (IH (commit s (handleRedo s))) as [Hh' Hi']; [rewrite Hh; lia|].
      rewrite Hh', Hi', Hh, Hi. split; [reflexivity|lia].
Qed.

(** X4. Under the history invariant there is a current image exactly when
    the history is not empty, the editor is on screen exactly when moreover
    no error is shown, and reset makes the original image the current one. *)
Theorem current_image_and_view (s : State) :
  history_invariant s ->
  (currentImage s = None <-> history s = [])
  /\ (renderContent s = EditorView
      <-> history s <> [] /\ truthy (orEmpty (error s)) = false)
  /\ currentImage (commit s (handleReset s)) = originalImage s.
Proof.
  intros [Hrange Hempty].
  assert (Hcur : currentImage s = None <-> history s = []).
  { unfold currentImage, at_index. destruct (history s) as [|x l] eqn:E.
    - split; [reflexivity|]. intros _. destruct (_ <? 0); [reflexivity|].
      destruct (Z.to_nat _); reflexivity.
    - simpl length in *. split; [|congruence].
      destruct (historyIndex s <? 0) eqn:En; [apply Z.ltb_lt in En; lia|].
      intros H. apply nth_error_None in H. simpl length in H. lia. }
  split; [exact Hcur|]. split.
  - unfold renderContent.
    destruct (error s) as [[|ch msg]|]; cbn [orEmpty truthy];
      try (split; [discriminate | intros [_ H]; discriminate]);
      (destruct (currentImage s) eqn:E;
       [ split; [intros _; split; [|reflexivity]; intros H; apply Hcur in H; congruence
                | reflexivity]
       | split; [discriminate | intros [H _]; exfalso; apply H, Hcur; reflexivity] ]).
  - unfold handleReset. destruct (history s) as [|x l] eqn:E.
    + cbn. unfold currentImage, originalImage. rewrite E.
      unfold at_index. destruct (_ <? 0); [reflexivity|].
      destruct (Z.to_nat _); reflexivity.
    + assert (Hpos : (Z.of_nat (length (x :: l)) >? 0) = true).
      { rewrite Z.gtb_ltb. apply Z.ltb_lt. simpl length. lia. }
      rewrite Hpos. unfold currentImage, originalImage. cbn. rewrite E.
      reflexivity.
Qed.

(** ** How a request settles *)

Lemma commit_app (s : State) (us vs : list SetState) :
  commit s (us ++ vs) = commit (commit s us) vs.
Proof. unfold commit. apply fold_left_app. Qed.

Lemma resume_resolved_effects (r : Request)
  (c s : State) (env : Env) (url : string) (f : File) :
  dataURLtoFile url (resultFileName r env) = inr f ->
  let s' := commit s (resume r c env (Resolved url)) in
  history s' = slice (history c) 0 (historyIndex c + 1) ++ [f]
  /\ historyIndex s' = Z.of_nat (length (history s')) - 1
  /\ busy (actionOf r) s' = false
  /\ error s' = error s
  /\ crop s' = None /\ completedCrop s' = None /\ expandRect s' = None
  /\ retouchReferenceImage s'
     = match r with
       | generateRetouchedImage _ _ _ => None
       | _ => retouchReferenceImage s
       end.
Proof.
  intros Hf. destruct r; cbv zeta;
    unfold resume, handleGenerate_resume, handleApplyFilter_resume,
      handleApplyAdjustment_resume, handleApplyExpand_resume,
      handleUpscale_resume, try_catch_finally;
    unfold resultFileName in Hf; cbn [await bind ret];
    rewrite Hf; cbn [bind ret]; repeat split.
Qed.

(** X5. When the service resolves with a data URL that parses to a file,
    the file is appended to the history the handler captured when the action
    was submitted, cut after the captured cursor, whatever was undone or
    redone in between; the cursor goes to the new entry, the action's busy
    flag is lowered, crop and expand selections are cleared, the shown error
    is left alone, and the reference image is dropped by a retouch only. *)
Theorem resolved_request_appends_to_captured_history (r : Request)
  (c s : State) (env : Env) (url : string) (f : File) :
  dataURLtoFile url (resultFileName r env) = inr f ->
  let s' := commit s (resume r c env (Resolved url)) in
  history s' = slice (history c) 0 (historyIndex c + 1) ++ [f]
  /\ historyIndex s' = Z.of_nat (length (history s')) - 1
  /\ busy (actionOf r) s' = false
  /\ error s' = error s
  /\ crop s' = None /\ completedCrop s' = None /\ expandRect s' = None
  /\ retouchReferenceImage s'
     = match r with
       | generateRetouchedImage _ _ _ => None
       | _ => retouchReferenceImage s
       end.
Proof. apply resume_resolved_effects. Qed.

(** X6. When the service rejects, or resolves with a data URL that
    [dataURLtoFile] cannot parse, the handler does exactly two things: it
    shows its failure message followed by the message of the error (or by
    'An unknown error occurred.' for a thrown value that is no Error), and it
    lowers the action's busy flag. *)
Theorem failed_request_sets_error_only (r : Request) (c s : State)
  (env : Env) (o : Outcome) (err : Thrown) :
  o = Rejected err
  \/ (exists url, o = Resolved url
                  /\ dataURLtoFile url (resultFileName r env) = inl err) ->
  commit s (resume r c env o)
  = commit s [ setError (Some (failurePrefix r ++ errorMessage err)%string);
               setBusy (actionOf r) false ].
Proof.
  intros [-> | (url & -> & Hf)].
  - destruct r; reflexivity.
  - destruct r;
      unfold resume, handleGenerate_resume, handleApplyFilter_resume,
        handleApplyAdjustment_resume, handleApplyExpand_resume,
        handleUpscale_resume, try_catch_finally;
      unfold resultFileName in Hf; cbn [await bind ret];
      rewrite Hf; reflexivity.
Qed.

(** X7. Submitting an action either starts a request or fails its local
    validation.  A started request carries the current image, belongs to the
    submitted action, and its handler has raised the busy flag and cleared
    the error, nothing else.  A failed validation changes nothing but the
    error message (and for upscale without an image, nothing at all). *)
Theorem submission_effects (a : Action) (s : State) (env : Env) :
  match snd (start a s env) with
  | Some r =>
      currentImage s = Some (requestImage r)
      /\ actionOf r = a
      /\ commit s (fst (start a s env))
         = commit s [ setBusy a true; setError None ]
  | None =>
      commit s (fst (start a s env)) = s
      \/ exists message,
           commit s (fst (start a s env)) = apply_set s (setError (Some message))
  end.
Proof.
  destruct a; unfold start, handleGenerate, handleApplyFilter,
    handleApplyAdjustment, handleApplyExpand, handleUpscale;
    repeat match goal with
    | |- context [match currentImage s with _ => _ end] =>
        destruct (currentImage s) eqn:?
    | |- context [match expandRect s with _ => _ end] =>
        destruct (expandRect s) eqn:?
    | |- context [match imgRef env with _ => _ end] =>
        destruct (imgRef env) eqn:?
    | |- context [match imageDimensions s with _ => _ end] =>
        destruct (imageDimensions s) eqn:?
    | |- context [match imageContainerRef env with _ => _ end] =>
        destruct (imageContainerRef env) eqn:?
    | |- context [if ?b then _ else _] => destruct b eqn:?
    end;
    cbn [fst snd];
    try (repeat split; reflexivity);
    try (right; eexists; reflexivity);
    try (left; reflexivity).
Qed.

(** ** What events can and cannot change *)

Lemma activeTabEffect_ui (t : Tab) (sys : Sys) :
  ui (activeTabEffect t sys) = ui sys
  \/ ui (activeTabEffect t sys) = apply_set (ui sys) (setExpandRect None).
Proof.
  unfold activeTabEffect.
  destruct (Tab_eqb t (activeTab (ui sys))); [left; reflexivity|].
  destruct (Tab_eqb (activeTab (ui sys)) Tab_expand);
    [left; reflexivity | right; reflexivity].
Qed.

Lemma dispatch_ui (sys : Sys) (env : Env) (ev : Event) :
  dispatch sys (env, ev) = sys
  \/ enabled env sys ev = true
     /\ (ui (dispatch sys (env, ev)) = commit (ui sys) (fst (handler env sys ev))
         \/ ui (dispatch sys (env, ev))
            = apply_set (commit (ui sys) (fst (handler env sys ev)))
                (setExpandRect None)).
Proof.
  unfold dispatch. destruct (enabled env sys ev); [right|left; reflexivity].
  split; [reflexivity|].
  destruct (handler env sys ev) as [updates started]. cbn [fst].
  match goal with
  | |- context [activeTabEffect ?t ?x] =>
      destruct (activeTabEffect_ui t x) as [H|H]; rewrite H
  end; [left|right]; reflexivity.
Qed.

Ltac handler_cases ev :=
  destruct ev; try discriminate; cbn [handler fst];
  unfold handleGenerate, handleApplyFilter, handleApplyAdjustment,
    handleApplyExpand, handleUpscale, handleUndo, handleRedo, handleReset,
    handleImageLoad, initExpandRect, handleExpandMouseDown, handleMouseMove,
    handleTryAgain, handleCancelLeave, handleMouseUp;
  repeat match goal with
  | |- context [match ?x with _ => _ end] => destruct x
  end;
  cbn [fst].

(** X8. The snapshot sequence changes only when a file is uploaded or
    generated, when the history is discarded (upload-new, directly or behind
    the logo) or when a request settles; apart from those the cursor moves
    only on undo, redo and reset. *)
Theorem history_changes_only_by_upload_or_settle (env : Env) (sys : Sys)
  (ev : Event) :
  replacesHistory ev = false ->
  settles ev = false ->
  history (ui (dispatch sys (env, ev))) = history (ui sys)
  /\ (movesCursor ev = false ->
      historyIndex (ui (dispatch sys (env, ev))) = historyIndex (ui sys)).
Proof.
  intros Hrep Hset.
  assert (Hh : forall s0, history (commit s0 (fst (handler env sys ev)))
                          = history s0).
  { intros s0. handler_cases ev; reflexivity. }
  assert (Hi : movesCursor ev = false ->
               forall s0, historyIndex (commit s0 (fst (handler env sys ev)))
                          = historyIndex s0).
  { intros Hmove s0. handler_cases ev; reflexivity. }
  destruct (dispatch_ui sys env ev) as [-> | (_ & [-> | ->])].
  - split; [reflexivity | intros _; reflexivity].
  - split; [apply Hh | intros Hm; apply Hi, Hm].
  - split; [apply (Hh (ui sys)) | intros Hm; apply (Hi Hm (ui sys))].
Qed.

(** X9. Once the natural size of an image has been recorded, no image load,
    no edit and no settling request changes it: only a new upload, a
    generated image or upload-new clears it.  After an append the recorded
    size is therefore still that of the image first loaded. *)
Theorem imageDimensions_recorded_once (env : Env) (sys : Sys) (ev : Event)
  (dims : Dim.t) :
  replacesHistory ev = false ->
  imageDimensions (ui sys) = Some dims ->
  imageDimensions (ui (dispatch sys (env, ev))) = Some dims.
Proof.
  intros Hrep Hd.
  assert (H : forall s0,
             imageDimensions (commit s0 (fst (handler env sys ev)))
             = imageDimensions s0).
  { intros s0. destruct ev; try discriminate; cbn [handler fst];
      try (unfold handleImageLoad; rewrite Hd; reflexivity);
      try (destruct (nth_error (inflight sys) i) as [p|]; cbn [fst];
           [ destruct (request p);
             unfold resume, handleGenerate_resume, handleApplyFilter_resume,
               handleApplyAdjustment_resume, handleApplyExpand_resume,
               handleUpscale_resume, try_catch_finally;
             destruct o; cbn [await bind ret throw];
             try match goal with
                 | |- context [dataURLtoFile ?u ?n] =>
                     destruct (dataURLtoFile u n)
                 end;
             reflexivity
           | reflexivity ]);
      unfold handleGenerate, handleApplyFilter, handleApplyAdjustment,
        handleApplyExpand, handleUpscale, handleUndo, handleRedo, handleReset,
        initExpandRect, handleExpandMouseDown, handleMouseMove;
      repeat match goal with
      | |- context [match ?x with _ => _ end] => destruct x
      end;
      reflexivity. }
  specialize (H (ui sys)). rewrite Hd in H.
  destruct (dispatch_ui sys env ev) as [-> | (_ & [-> | ->])];
    [exact Hd | exact H | exact H].
Qed.

(** X10. While the error view is on screen nothing of the editor can be
    operated: every event other than "Try Again", the logo and its modal,
    the window's mouse listeners, the expand timer and the settling of
    requests leaves the application as it is. *)
Theorem error_view_blocks_editor (env : Env) (sys : Sys) (ev : Event) :
  renderContent (ui sys) = ErrorView ->
  outsideEditor ev = false ->
  dispatch sys (env, ev) = sys.
Proof.
  intros Hview Hev. apply dispatch_disabled.
  destruct ev; try discriminate; cbn [enabled];
    unfold inEditor; rewrite Hview; reflexivity.
Qed.

Lemma inEditor_true (s : State) :
  inEditor s = true -> renderContent s = EditorView.
Proof. unfold inEditor. destruct (renderContent s); congruence. Qed.

Lemma remove_nth_length {A : Type} (i : nat) (arr : list A) :
  (length (remove_nth i arr) <= length arr)%nat.
Proof.
  unfold remove_nth. rewrite length_app, length_firstn, length_skipn. lia.
Qed.

(** X11. Every request that reaches the generative service through the
    interface is made from the editor view, carries the image that is
    current at the click, is queued behind the requests already in flight
    together with the render it was submitted in, and, if it has a prompt
    (retouch, filter, adjustment), that prompt is not blank. *)
Theorem started_request_is_well_formed (env : Env) (sys : Sys) (ev : Event) :
  (length (inflight (dispatch sys (env, ev))) > length (inflight sys))%nat ->
  exists r,
    inflight (dispatch sys (env, ev))
    = inflight sys ++ [ {| request := r; closure := ui sys |} ]
    /\ renderContent (ui sys) = EditorView
    /\ currentImage (ui sys) = Some (requestImage r)
    /\ match requestPrompt r with
       | Some p => trim_is_empty p = false
       | None => True
       end.
Proof.
  unfold dispatch. destruct (enabled env sys ev) eqn:Hen; [|lia].
  destruct (handler env sys ev) as [updates [r|]] eqn:Hh.
  - intros _. exists r.
    match goal with
    | |- context [activeTabEffect ?t ?x] =>
        destruct (activeTabEffect_frame t x) as (Hin & _)
    end.
    rewrite Hin. cbn [inflight].
    destruct ev; cbn [handler] in Hh; try discriminate; cbn [enabled] in Hen;
      repeat match goal with
      | H : (_ && _) = true |- _ => apply andb_true_iff in H; destruct H
      | H : negb _ = true |- _ => apply negb_true_iff in H
      | H : (_ || _) = false |- _ => apply orb_false_iff in H; destruct H
      end;
      try match goal with
      | H : inEditor (ui sys) = true |- _ => apply inEditor_true in H
      end;
      unfold handleGenerate, handleApplyFilter, handleApplyAdjustment,
        handleApplyExpand, handleUpscale in Hh;
      repeat match type of Hh with
      | context [match ?x with _ => _ end] => destruct x eqn:?
      end;
      try discriminate;
      injection Hh as <- <-; cbn [requestImage requestPrompt];
      repeat split; assumption.
  - match goal with
    | |- context [activeTabEffect ?t ?x] =>
        destruct (activeTabEffect_frame t x) as (Hin & _)
    end.
    rewrite Hin. cbn [inflight].
    destruct ev; try lia.
    pose proof (remove_nth_length i (inflight sys)). lia.
Qed.

(** X14. A drag does not accumulate: each pointer-move is computed from the
    rectangle and pointer position of the pointer-down, so after any
    sequence of moves the frame is what the last move alone would have
    given. *)
Theorem drag_last_move_wins (env : Env) (s : State) (handle : string)
  (x0 y0 : float) (moves : list (float * float)) (x y : float) :
  imgRef env <> None -> imageContainerRef env <> None ->
  expandRect s <> None ->
  expandRect (drag env s handle x0 y0 (moves ++ [(x, y)]))
  = expandRect (drag env s handle x0 y0 [(x, y)]).
Proof.
  intros Hi Hc Hr. unfold drag.
  set (s1 := commit s (handleExpandMouseDown s handle x0 y0)).
  rewrite fold_left_app. cbn [fold_left fst snd].
  assert (Hd : forall ms, dragState (fold_left
                 (fun s' m => commit s' (handleMouseMove s' env (fst m) (snd m)))
                 ms s1) = dragState s1).
  { intros ms. generalize s1. induction ms as [|m ms IH]; intros s2;
      [reflexivity|].
    cbn [fold_left]. rewrite IH. apply handleMouseMove_keeps_drag. }
  specialize (Hd moves).
  set (sn := fold_left _ moves s1) in *.
  unfold handleMouseMove. rewrite Hd.
  destruct (dragState s1) as [d|] eqn:Ed.
  - destruct (imgRef env); [|congruence].
    destruct (imageContainerRef env); [|congruence]. reflexivity.
  - exfalso. subst s1. unfold handleExpandMouseDown in Ed.
    destruct (expandRect s); [discriminate|congruence].
Qed.

Lemma float_leb_true_ltb (x y : float) :
  (x <=? y)%float = true -> (y <? x)%float = false.
Proof.
  rewrite FloatAxioms.ltb_spec, FloatAxioms.leb_spec. unfold SFltb, SFleb.
  destruct (SFcompare (Prim2SF x) (Prim2SF y)) as [c|] eqn:E; [|discriminate].
  rewrite (SFcompare_antisym _ _ _ E). destruct c; cbn; congruence.
Qed.

(** X15. For target and recorded dimensions that are numbers, the "Generate
    Expansion" button of [ExpandPanel] is enabled by [isExpanded] exactly
    when [handleApplyExpand] would pass its own frame-enlarged check, so a
    click on the enabled button never ends in the "Please expand the frame
    outwards" error. *)
Theorem expand_button_agrees_with_validation (c : State) (env : Env)
  (image : File) (r : ExpandRect) (displayed container : DOMRect.t)
  (dims : Dim.t) :
  currentImage c = Some image ->
  expandRect c = Some r ->
  imgRef env = Some displayed ->
  imageDimensions c = Some dims ->
  imageContainerRef env = Some container ->
  isNumber (targetWidth r (scale dims displayed)) ->
  isNumber (targetHeight r (scale dims displayed)) ->
  isNumber (Dim.width dims) -> isNumber (Dim.height dims) ->
  (isExpanded (imageDimensions c) (expandRect c) (imgRef env) = true
   <-> snd (handleApplyExpand c env) <> None).
Proof.
  intros Hc Hr Hi Hd Hk Ntw Nth Nw Nh.
  unfold isExpanded, handleApplyExpand.
  rewrite Hc, Hr, Hi, Hd, Hk. rewrite newDimensions_agrees. cbv zeta.
  set (tw := targetWidth r (scale dims displayed)) in *.
  set (th := targetHeight r (scale dims displayed)) in *.
  destruct (tw <=? Dim.width dims)%float eqn:Ew;
    destruct (th <=? Dim.height dims)%float eqn:Eh; cbn [andb snd].
  - rewrite (float_leb_true_ltb _ _ Ew), (float_leb_true_ltb _ _ Eh).
    cbn. split; [discriminate | congruence].
  - assert (Hlt : (Dim.height dims <? th)%float = true).
    { destruct (Dim.height dims <? th)%float eqn:E; [reflexivity|].
      rewrite (float_ltb_false_leb _ _ Nh Nth E) in Eh. discriminate. }
    rewrite Hlt, orb_true_r. split; [discriminate | reflexivity].
  - assert (Hlt : (Dim.width dims <? tw)%float = true).
    { destruct (Dim.width dims <? tw)%float eqn:E; [reflexivity|].
      rewrite (float_ltb_false_leb _ _ Nw Ntw E) in Ew. discriminate. }
    rewrite Hlt. split; [discriminate | reflexivity].
  - assert (Hlt : (Dim.width dims <? tw)%float = true).
    { destruct (Dim.width dims <? tw)%float eqn:E; [reflexivity|].
      rewrite (float_ltb_false_leb _ _ Nw Ntw E) in Ew. discriminate. }
    rewrite Hlt. split; [discriminate | reflexivity].
Qed.

(** ** Data URLs and the service's reply *)

Lemma includes_cons (ch c : ascii) (str : string) :
  includes (String c str) ch = Ascii.eqb ch c || includes str ch.
Proof. reflexivity. Qed.

Lemma split_no_separator (sep : ascii) (str : string) :
  includes str sep = false -> split sep str = [str].
Proof.
  induction str as [|c str IH]; intros H; [reflexivity|].
  rewrite includes_cons in H. apply orb_false_iff in H. destruct H as [Hc Hs].
  cbn [split]. rewrite Ascii.eqb_sym, Hc, (IH Hs). reflexivity.
Qed.

Lemma split_at_first_separator (sep : ascii) (head rest : string) :
  includes head sep = false ->
  split sep (head ++ String sep rest)%string = head :: split sep rest.
Proof.
  induction head as [|c head IH]; intros H.
  - cbn. rewrite Ascii.eqb_refl. reflexivity.
  - rewrite includes_cons in H. apply orb_false_iff in H. destruct H as [Hc Hs].
    cbn [append split]. rewrite Ascii.eqb_sym, Hc, (IH Hs). reflexivity.
Qed.

Lemma split_head (sep : ascii) (str : string) :
  exists piece pieces, split sep str = piece :: pieces.
Proof.
  induction str as [|c str (piece & pieces & IH)]; cbn [split]; [eauto|].
  destruct (Ascii.eqb c sep); [eauto|]. rewrite IH. eauto.
Qed.

Lemma lazyGroup_needs_semicolon (str group : string) :
  lazyGroupThenSemicolon str = Some group -> includes str ";" = true.
Proof.
  revert group. induction str as [|c str IH]; intros group H; [discriminate|].
  rewrite includes_cons. cbn [lazyGroupThenSemicolon] in H.
  rewrite Ascii.eqb_sym. destruct (Ascii.eqb c ";"); [reflexivity|].
  destruct (isLineTerminator c || startsWithLineSeparator (String c str));
    [discriminate|].
  destruct (lazyGroupThenSemicolon str) as [g|]; [|discriminate].
  cbn. exact (IH g eq_refl).
Qed.

Lemma mimeMatch_needs_semicolon (str : string) :
  includes str ";" = false -> mimeMatch str = None.
Proof.
  induction str as [|c str IH]; intros H; [reflexivity|].
  rewrite includes_cons in H. apply orb_false_iff in H. destruct H as [_ Hs].
  cbn [mimeMatch]. destruct (Ascii.eqb c ":"); [|exact (IH Hs)].
  destruct (lazyGroupThenSemicolon str) as [g|] eqn:E; [|exact (IH Hs)].
  apply lazyGroup_needs_semicolon in E. congruence.
Qed.

Lemma isMimeChar_plain (c : ascii) (str : string) :
  isMimeChar c = true ->
  Ascii.eqb c ";" = false
  /\ Ascii.eqb c "," = false
  /\ isLineTerminator c || startsWithLineSeparator (String c str) = false.
Proof.
  destruct c as [b0 b1 b2 b3 b4 b5 b6 b7].
  destruct b0, b1, b2, b3, b4, b5, b6, b7; cbn; intros H;
    try discriminate; repeat split;
    destruct str as [|c2 [|c3 str]]; reflexivity.
Qed.

Lemma lazyGroup_mime (mime tail : string) :
  forallb isMimeChar (list_ascii_of_string mime) = true ->
  lazyGroupThenSemicolon (mime ++ String ";" tail)%string = Some mime.
Proof.
  induction mime as [|c mime IH]; intros H; [reflexivity|].
  cbn [list_ascii_of_string forallb] in H. apply andb_true_iff in H.
  destruct H as [Hc Hm].
  cbn [append lazyGroupThenSemicolon].
  destruct (isMimeChar_plain c (mime ++ String ";" tail) Hc) as (H1 & _ & H2).
  rewrite H1, H2, (IH Hm). reflexivity.
Qed.

Lemma mime_has_no_comma (mime : string) :
  forallb isMimeChar (list_ascii_of_string mime) = true ->
  includes mime "," = false.
Proof.
  induction mime as [|c mime IH]; intros H; [reflexivity|].
  cbn [list_ascii_of_string forallb] in H. apply andb_true_iff in H.
  destruct H as [Hc Hm]. rewrite includes_cons, (IH Hm), orb_false_r.
  destruct (isMimeChar_plain c EmptyString Hc) as (_ & H & _).
  rewrite Ascii.eqb_sym. exact H.
Qed.

Lemma includes_app (a b : string) (ch : ascii) :
  includes (a ++ b)%string ch = includes a ch || includes b ch.
Proof.
  induction a as [|c a IH]; [reflexivity|].
  cbn [append]. rewrite !includes_cons, IH, orb_assoc. reflexivity.
Qed.

Lemma string_app_assoc (a b c : string) :
  ((a ++ b) ++ c)%string = (a ++ (b ++ c))%string.
Proof. induction a as [|ch a IH]; [reflexivity|]. cbn. rewrite IH. reflexivity. Qed.

Lemma split_append_separator (sep : ascii) (url piece : string) :
  split sep (url ++ String sep piece)%string = split sep url ++ split sep piece.
Proof.
  induction url as [|c url IH].
  - cbn [append split]. rewrite Ascii.eqb_refl. reflexivity.
  - cbn [append split]. destruct (Ascii.eqb c sep); rewrite IH.
    + reflexivity.
    + destruct (split_head sep url) as (p & ps & E). rewrite E. reflexivity.
Qed.

(** A well-formed base64 data URL parses to its MIME type and decoded
    payload, and what follows a second comma is ignored. *)
Lemma dataURLtoFile_wellformed (mime payload filename : string)
  (more : list string) :
  forallb isMimeChar (list_ascii_of_string mime) = true ->
  mime <> EmptyString ->
  includes payload "," = false ->
  dataURLtoFile
    (fold_left (fun url piece => (url ++ "," ++ piece)%string) more
       ("data:" ++ mime ++ ";base64," ++ payload)%string)
    filename
  = (bstr <- atob payload ;;
     ret {| file_name := filename; file_type := mime; file_data := bstr |}).
Proof.
  intros Hmime Hne Hpay.
  assert (Hsplit : forall url pieces,
             split "," url = pieces ->
             forall ms, split ","
               (fold_left (fun url piece => (url ++ "," ++ piece)%string) ms url)
               = pieces ++ concat (map (split ",") ms)).
  { intros url pieces Hs ms. revert url pieces Hs.
    induction ms as [|m ms IH]; intros url pieces Hs.
    - cbn. rewrite app_nil_r. exact Hs.
    - cbn [fold_left map concat]. rewrite app_assoc. apply IH.
      subst pieces. apply split_append_separator. }
  assert (Hbase : split "," ("data:" ++ mime ++ ";base64," ++ payload)%string
                  = [ ("data:" ++ mime ++ ";base64")%string; payload ]).
  { replace ("data:" ++ mime ++ ";base64," ++ payload)%string
      with (("data:" ++ mime ++ ";base64") ++ String "," payload)%string.
    - rewrite split_at_first_separator.
      + rewrite (split_no_separator _ _ Hpay). reflexivity.
      + rewrite !includes_app, (mime_has_no_comma _ Hmime). reflexivity.
    - rewrite !string_app_assoc. reflexivity. }
  unfold dataURLtoFile. rewrite (Hsplit _ _ Hbase). cbn [app].
  assert (Hmatch : mimeMatch ("data:" ++ mime ++ ";base64")%string = Some mime).
  { cbn. rewrite (lazyGroup_mime mime "base64" Hmime). reflexivity. }
  rewrite Hmatch. destruct mime; [congruence|reflexivity].
Qed.

(** X12. [dataURLtoFile] throws "Invalid data URL" for a string without a
    comma and "Could not parse MIME type from data URL" when the part before
    the first comma has no semicolon; for "data:MIME;base64,PAYLOAD" it
    returns the file with the given name, type MIME and content
    [atob(PAYLOAD)] (or throws what [atob] throws), also when further
    comma-separated pieces follow, which it ignores. *)
Theorem dataURLtoFile_behaviour (filename : string) :
  (forall dataurl,
      includes dataurl "," = false ->
      dataURLtoFile dataurl filename = throw (Error "Invalid data URL"))
  /\ (forall head rest,
      includes head "," = false -> includes head ";" = false ->
      dataURLtoFile (head ++ "," ++ rest)%string filename
      = throw (Error "Could not parse MIME type from data URL"))
  /\ (forall mime payload more,
      forallb isMimeChar (list_ascii_of_string mime) = true ->
      mime <> EmptyString ->
      includes payload "," = false ->
      dataURLtoFile
        (fold_left (fun url piece => (url ++ "," ++ piece)%string) more
           ("data:" ++ mime ++ ";base64," ++ payload)%string)
        filename
      = (bstr <- atob payload ;;
         ret {| file_name := filename; file_type := mime; file_data := bstr |})).
Proof.
  split; [|split].
  - intros dataurl H. unfold dataURLtoFile.
    rewrite (split_no_separator _ _ H). reflexivity.
  - intros head rest Hc Hs. unfold dataURLtoFile.
    change (head ++ "," ++ rest)%string with (head ++ String "," rest)%string.
    rewrite (split_at_first_separator _ _ _ Hc).
    destruct (split_head "," rest) as (p & ps & E). rewrite E.
    rewrite (mimeMatch_needs_semicolon _ Hs). reflexivity.
  - intros mime payload more. apply dataURLtoFile_wellformed.
Qed.

(** X13. [handleApiResponse] returns exactly when the reply is not blocked
    and the first candidate has an image part, and then returns the data URL
    of the first such part; a blocked reply is refused even when it carries
    an image.  Whatever it throws is an Error object, so its message is what
    the user gets to see. *)
Theorem handleApiResponse_returns_iff (response : GenerateContentResponse)
  (context : string) :
  (forall url,
      handleApiResponse response context = inr url
      <-> orEmpty (blockReason response) = EmptyString
          /\ exists image,
               imagePartFromResponse response = Some image
               /\ url = ("data:" ++ mimeType image ++ ";base64,"
                         ++ data image)%string)
  /\ (forall err,
      handleApiResponse response context = inl err ->
      exists message, err = Error message).
Proof.
  unfold handleApiResponse.
  destruct (orEmpty (blockReason response)) as [|ch reason] eqn:Eb.
  - destruct (imagePartFromResponse response) as [image|] eqn:Ei.
    + split.
      * intros url. split.
        -- intros H. injection H as <-. split; [reflexivity|]. eauto.
        -- intros (_ & image' & Hi & ->). injection Hi as <-. reflexivity.
      * intros err H. discriminate.
    + split.
      * intros url. split.
        -- cbv zeta.
           destruct (truthy _ && negb _); intros H; discriminate.
        -- intros (_ & image' & Hi & _). discriminate.
      * intros err. cbv zeta.
        destruct (truthy _ && negb _); intros H; injection H as <-; eauto.
  - split.
    + intros url. split; [discriminate|]. intros (H & _). discriminate.
    + intros err H. injection H as <-. eauto.
Qed.

(** X16. From the model's reply to the history: when the reply is not
    blocked and its first image part has a plain MIME type and a payload
    that [atob] decodes, the settled request appends the file with that type
    and the decoded content, named after the action and the time, to the
    history captured at submission; when the reply is blocked, the history
    stays as it is and the error shown is the handler's failure message
    followed by "Request was blocked. Reason: ...". *)
Theorem reply_to_history (r : Request) (c s : State) (env : Env)
  (response : GenerateContentResponse) :
  (forall image bstr,
      orEmpty (blockReason response) = EmptyString ->
      imagePartFromResponse response = Some image ->
      forallb isMimeChar (list_ascii_of_string (mimeType image)) = true ->
      mimeType image <> EmptyString ->
      includes (data image) "," = false ->
      atob (data image) = inr bstr ->
      let s' := commit s (resume r c env (settleWith r response)) in
      history s'
      = slice (history c) 0 (historyIndex c + 1)
        ++ [ {| file_name := resultFileName r env;
                file_type := mimeType image;
                file_data := bstr |} ]
      /\ historyIndex s' = Z.of_nat (length (history s')) - 1
      /\ error s' = error s)
  /\ (forall reason,
      orEmpty (blockReason response) = reason ->
      reason <> EmptyString ->
      let s' := commit s (resume r c env (settleWith r response)) in
      history s' = history s
      /\ historyIndex s' = historyIndex s
      /\ error s'
         = Some (failurePrefix r ++ "Request was blocked. Reason: " ++ reason
                 ++ ". " ++ orEmpty (blockReasonMessage response))%string).
Proof.
  split.
  - intros image bstr Hb Hi Hmime Hne Hdata Hatob.
    assert (Hsettle : settleWith r response
                      = Resolved ("data:" ++ mimeType image ++ ";base64,"
                                  ++ data image)%string).
    { unfold settleWith, handleApiResponse. rewrite Hb, Hi. reflexivity. }
    assert (Hfile : dataURLtoFile
                      ("data:" ++ mimeType image ++ ";base64," ++ data image)%string
                      (resultFileName r env)
                    = inr {| file_name := resultFileName r env;
                             file_type := mimeType image;
                             file_data := bstr |}).
    { pose proof (dataURLtoFile_wellformed (mimeType image) (data image)
                    (resultFileName r env) [] Hmime Hne Hdata) as Hw.
      cbn [fold_left] in Hw. rewrite Hw, Hatob. reflexivity. }
    rewrite Hsettle.
    destruct (resume_resolved_effects r c s env _ _ Hfile)
      as (Hh & Hidx & _ & He & _).
    cbv zeta. repeat split; assumption.
  - intros reason Hb Hne.
    assert (Hsettle : settleWith r response
                      = Rejected (Error ("Request was blocked. Reason: "
                                         ++ reason ++ ". "
                                         ++ orEmpty (blockReasonMessage response))%string)).
    { unfold settleWith, handleApiResponse. rewrite Hb.
      destruct reason; [congruence|reflexivity]. }
    rewrite Hsettle. destruct r; cbv zeta; repeat split.
Qed.

End Browser.

(** * Concrete instances *)



Lemma undo_redo_boundaries_witness :
  (historyIndex uploaded = 0
   /\ commit uploaded (handleUndo uploaded) = uploaded)
  /\ (historyIndex uploaded = Z.of_nat (length (history uploaded)) - 1
      /\ commit uploaded (handleRedo uploaded) = uploaded)
  /\ (0 < historyIndex editedTwiceUndoneOnce
        <= Z.of_nat (length (history editedTwiceUndoneOnce)) - 1
      /\ commit (commit editedTwiceUndoneOnce (handleUndo editedTwiceUndoneOnce))
           (handleRedo (commit editedTwiceUndoneOnce
                          (handleUndo editedTwiceUndoneOnce)))
         = editedTwiceUndoneOnce).
Proof.
  assert (H0 : historyIndex uploaded = 0) by reflexivity.
  assert (H1 : historyIndex uploaded = Z.of_nat (length (history uploaded)) - 1)
    by reflexivity.
  assert (H2 : 0 < historyIndex editedTwiceUndoneOnce
                 <= Z.of_nat (length (history editedTwiceUndoneOnce)) - 1)
    by (vm_compute; split; [reflexivity | discriminate]).
  destruct (undo_redo_boundaries uploaded) as (U & R & _).
  destruct (undo_redo_boundaries editedTwiceUndoneOnce) as (_ & _ & UR).
  split; [split; [exact H0 | exact (U H0)]|].
  split; [split; [exact H1 | exact (R H1)]|].
  split; [exact H2|].
  destruct (UR H2) as (_ & _ & _ & _ & E). exact E.
Defined.

Lemma history_ops_preserve_invariant_witness :
  history_invariant editedTwiceUndoneOnce
  /\ history_invariant
       (commit editedTwiceUndoneOnce (history_op Undo editedTwiceUndoneOnce))
  /\ history_invariant
       (commit editedTwiceUndoneOnce
          (history_op (Append imageD) editedTwiceUndoneOnce)).
Proof.
  assert (H : history_invariant editedTwiceUndoneOnce).
  { unfold history_invariant. vm_compute.
    split; [intros _; split; [discriminate | reflexivity]|].
    split; discriminate. }
  split; [exact H|].
  split; apply history_ops_preserve_invariant; exact H.
Defined.

Lemma reset_idempotent_witness :
  (history initialState = []
   /\ commit initialState (handleReset initialState) = initialState)
  /\ (historyIndex uploaded = 0
      /\ history (commit uploaded (handleReset uploaded)) = history uploaded)
  /\ (history editedTwiceUndoneOnce <> []
      /\ historyIndex (commit editedTwiceUndoneOnce
                         (handleReset editedTwiceUndoneOnce)) = 0).
Proof.
  assert (H0 : history initialState = []) by reflexivity.
  assert (H1 : historyIndex uploaded = 0) by reflexivity.
  assert (H2 : history editedTwiceUndoneOnce <> []) by (vm_compute; discriminate).
  destruct (reset_idempotent initialState) as (E & _).
  destruct (reset_idempotent uploaded) as (_ & Z0 & _).
  destruct (reset_idempotent editedTwiceUndoneOnce) as (_ & _ & NE & _).
  split; [split; [exact H0 | exact (E H0)]|].
  split; [split; [exact H1 | exact (proj1 (Z0 H1))]|].
  split; [exact H2 | exact (proj1 (NE H2))].
Defined.

Lemma undo_redo_only_move_cursor_witness :
  ui {| ui := editedTwiceUndoneOnce; inflight := []; expandTimer := false |}
  = editedTwiceUndoneOnce
  /\ (ui (dispatch atob_identity
            {| ui := editedTwiceUndoneOnce; inflight := []; expandTimer := false |}
            (displayed500x400, UndoClick))
      = commit editedTwiceUndoneOnce (handleUndo editedTwiceUndoneOnce)
      \/ dispatch atob_identity
           {| ui := editedTwiceUndoneOnce; inflight := []; expandTimer := false |}
           (displayed500x400, UndoClick)
         = {| ui := editedTwiceUndoneOnce; inflight := []; expandTimer := false |}).
Proof.
  split; [reflexivity|].
  destruct (undo_redo_only_move_cursor atob_identity editedTwiceUndoneOnce)
    as (_ & _ & _ & _ & _ & _ & _ & _ & _ & _ & U & _).
  exact (U displayed500x400
           {| ui := editedTwiceUndoneOnce; inflight := []; expandTimer := false |}
           eq_refl).
Defined.

Lemma expand_drag_clamps_around_image_witness :
  imgRef displayed500x400 = Some (DOMRect.mk 120 40 500 400)
  /\ imageContainerRef displayed500x400 = Some (DOMRect.mk 120 40 500 400)
  /\ expandRect expandOpened
     = Some {| top := 0; left := 0; width := 500; height := 400 |}
  /\ exists r newRight newBottom,
       expandRect (drag displayed500x400 expandOpened "ne" 540 120
                     ([ (560, 100); (500, 200) ] ++ [ (610.5, 90.25) ])%float)
       = Some r
       /\ clampedAroundImage (DOMRect.mk 120 40 500 400)
            (DOMRect.mk 120 40 500 400) r newRight newBottom.
Proof.
  split; [reflexivity|]. split; [reflexivity|]. split; [reflexivity|].
  destruct (expand_drag_clamps_around_image displayed500x400
              (DOMRect.mk 120 40 500 400) (DOMRect.mk 120 40 500 400)
              expandOpened {| top := 0; left := 0; width := 500; height := 400 |}
              "ne" 540 120 [ (560, 100); (500, 200) ]%float 610.5 90.25
              eq_refl eq_refl eq_refl)
    as (r & nr & nb & Hr & Hclamp & _).
  exists r, nr, nb. split; [exact Hr | exact Hclamp].
Defined.

(** C3, as stated, fails.  The expand tool is opened on an image 454.3
    pixels wide whose left edge is 343.8 - 319.8 from the container's, so
    the frame is the image and contains it; the west handle is then dragged
    256 pixels to the left.  The handler keeps the right edge at imgLeft +
    imgWidth and stores width = right - left; adding that width back to left
    in doubles gives 478.29999999999995, which is less than imgLeft +
    imgWidth = 478.30000000000001. *)
Lemma expand_drag_left_plus_width_falls_short :
  (exists r0,
      expandRect (ui (run atob_identity initialSys (firstn 4 dragWestBy256)))
      = Some r0
      /\ containsImage (DOMRect.mk 100 343.8 454.3 300)
           (DOMRect.mk 100 319.8 502.3 300) r0)
  /\ exists r,
       expandRect (ui (run atob_identity initialSys dragWestBy256)) = Some r
       /\ (left r + width r
           <? imgLeft (DOMRect.mk 100 343.8 454.3 300)
                (DOMRect.mk 100 319.8 502.3 300)
              + DOMRect.width (DOMRect.mk 100 343.8 454.3 300))%float = true
       /\ ~ containsImage (DOMRect.mk 100 343.8 454.3 300)
             (DOMRect.mk 100 319.8 502.3 300) r.
Proof.
  split.
  - eexists. split; [vm_compute; reflexivity|].
    repeat split; vm_compute; reflexivity.
  - eexists. split; [vm_compute; reflexivity|].
    split; [vm_compute; reflexivity|].
    intros (_ & _ & H & _). vm_compute in H. discriminate.
Qed.

(** C6: the code at the failing input.  A 1000 x 800 upload is upscaled and
    the upscaled image, 2000 x 1600, loads; [imageDimensions] still holds
    1000 x 800.  With the frame dragged to 550 displayed pixels at a
    displayed width of 500, the expansion is requested for a canvas of
    round(550 * (1000 / 500)) = 1100 by 800, where the natural size of the
    image gives round(550 * (2000 / 500)) = 2200 by 1600. *)
Theorem expand_after_upscale_uses_recorded_dimensions :
  map file_data
    (history (ui (run atob_identity initialSys (firstn 5 expandAfterUpscale))))
  = [ "A"; "B" ]
  /\ imageDimensions
       (ui (run atob_identity initialSys (firstn 5 expandAfterUpscale)))
     = Some (Dim.mk 1000 800)
  /\ map (fun p => match request p with
                   | generateExpandedImage image tw th ox oy =>
                       (file_data image, tw, th)
                   | _ => (EmptyString, 0%float, 0%float)
                   end)
       (inflight (run atob_identity initialSys expandAfterUpscale))
     = [ ("B", 1100%float, 800%float) ]
  /\ targetWidth {| top := 0; left := 0; width := 550; height := 400 |}
       (scale (Dim.mk 2000 1600) (DOMRect.mk 120 40 500 400)) = 2200%float
  /\ targetHeight {| top := 0; left := 0; width := 550; height := 400 |}
       (scale (Dim.mk 2000 1600) (DOMRect.mk 120 40 500 400)) = 1600%float.
Proof. repeat split; vm_compute; reflexivity. Qed.

(** The scenario of the specification: for a freshly uploaded 1000 x 800
    image displayed at 500 x 400 whose east handle is dragged by +50, the
    frame is 550 x 400 and the expansion to 1100 x 800 is requested. *)
Lemma expand_east_by_50_requests_1100_by_800 :
  option_map (fun r => (width r, height r))
    (expandRect (ui (run atob_identity initialSys (firstn 7 expandEastBy50))))
  = Some (550%float, 400%float)
  /\ map request (inflight (run atob_identity initialSys expandEastBy50))
     = [ generateExpandedImage imageA 1100 800 0 0 ]
  /\ isLoading (ui (run atob_identity initialSys expandEastBy50)) = true
  /\ error (ui (run atob_identity initialSys expandEastBy50)) = None.
Proof. repeat split; vm_compute; reflexivity. Qed.



Lemma busy_gate_ignores_resubmission_witness :
  In GenerateClick (controls Retouch)
  /\ busy Retouch
       (ui (run atob_identity initialSys (firstn 4 retouchInFlightAfterTryAgain)))
     = true
  /\ dispatch atob_identity
       (run atob_identity initialSys (firstn 4 retouchInFlightAfterTryAgain))
       (displayed500x400, GenerateClick)
     = run atob_identity initialSys (firstn 4 retouchInFlightAfterTryAgain).
Proof.
  assert (Hev : In GenerateClick (controls Retouch)) by (left; reflexivity).
  assert (Hbusy : busy Retouch
            (ui (run atob_identity initialSys
                   (firstn 4 retouchInFlightAfterTryAgain))) = true)
    by (vm_compute; reflexivity).
  split; [exact Hev|]. split; [exact Hbusy|].
  exact (proj1 (busy_gate_ignores_resubmission atob_identity Retouch
                  displayed500x400
                  (run atob_identity initialSys
                     (firstn 4 retouchInFlightAfterTryAgain))
                  GenerateClick Hev) Hbusy).
Defined.

(** C8, as stated, fails.  With an upscale in flight the Generate button is
    still enabled, so a retouch joins it: two actions are in flight.  When
    the upscale then fails and the error view is dismissed with "Try Again",
    isLoading is lowered although the retouch has not settled; the next click
    on Generate is accepted and calls the service for a second retouch while
    the first is still in flight. *)
Lemma second_retouch_accepted_while_first_in_flight :
  map request
    (inflight (run atob_identity initialSys
                 (firstn 4 retouchInFlightAfterTryAgain)))
  = [ upscaleImage imageA; generateRetouchedImage imageA "make it blue" None ]
  /\ map request
       (inflight (run atob_identity initialSys retouchInFlightAfterTryAgain))
     = [ generateRetouchedImage imageA "make it blue" None ]
  /\ isLoading (ui (run atob_identity initialSys retouchInFlightAfterTryAgain))
     = false
  /\ map request
       (inflight (dispatch atob_identity
                    (run atob_identity initialSys retouchInFlightAfterTryAgain)
                    (displayed500x400, GenerateClick)))
     = [ generateRetouchedImage imageA "make it blue" None;
         generateRetouchedImage imageA "make it blue" None ]
  /\ ~ (forall steps : list (Env * Event),
          (length (inflight (run atob_identity initialSys steps)) <= 1)%nat).
Proof.
  split; [vm_compute; reflexivity|].
  split; [vm_compute; reflexivity|].
  split; [vm_compute; reflexivity|].
  split; [vm_compute; reflexivity|].
  intros H. specialize (H (firstn 4 retouchInFlightAfterTryAgain)).
  vm_compute in H. lia.
Qed.
